(** * VideoFrameSelector: a shallow embedding of the frame-extraction engine

    The component of [src/components/VideoFrameSelector.tsx] is a React
    function component.  Its behaviour is a set of event handlers that
    mutate React state, two DOM elements (a hidden [<video>] and a
    [<canvas>]) and the browser's timer queue.  The embedding makes that
    store explicit:

    - [World] holds the [useState] cells, the props, the two elements,
      the pending timers with a logical clock in milliseconds, and two
      logs: the invocations of the [onFrameSelect] prop and the lines
      written with [console.error];
    - handler bodies are written in a small state-and-exception monad
      [M], so that [try]/[catch] and a throwing callback are modelled as
      the code has them;
    - the browser is the event loop [step]: it delivers media events,
      calls the slider handler, and runs the timers that are due when
      time passes. *)

From Stdlib Require Import String List Bool Lia.
From Stdlib Require Import ZArith NArith QArith.
From Stdlib Require Import Qround Ascii.
From Stdlib Require DecimalString.
Import ListNotations.

Local Open Scope string_scope.
Local Open Scope list_scope.

(** ** Data *)

(** The result of [canvas.toDataURL('image/jpeg', 0.9)]: an encoding of
    the canvas raster.  The raster is abstracted to its size and the
    media position of the picture that was drawn on it, if any. *)
Record DataUrl := mkDataUrl {
  jpegWidth : Z;
  jpegHeight : Z;
  jpegPicture : option Q
}.

(** The [<canvas>] element.  [context2d] tells whether
    [getContext('2d')] returns a context or [null]. *)
Record CanvasEl := mkCanvas {
  width : Z;
  height : Z;
  bitmap : option Q;
  context2d : bool
}.

(** The [<video>] element.  [mediaDuration] is [None] until metadata is
    known.  [picture] is the media position of the frame the decoder
    currently shows; it follows [videoCurrentTime] when a seek completes.
    Listeners are the closures the component registered: a ['seeked']
    listener is a [handleSeeked] closure, identified by [fst] and holding
    its captured [time]; the ['loadedmetadata'] listener holds the
    [selectedTimestamp] it captured. *)
Record VideoEl := mkVideo {
  mediaDuration : option Q;
  videoCurrentTime : Q;
  picture : Q;
  videoWidth : Z;
  videoHeight : Z;
  seekedListeners : list (nat * Q);
  loadedmetadataListener : option (option Q);
  errorListener : bool
}.

(** The [videoFile] prop.  [URL.createObjectURL] either returns a URL or
    throws an [Error] with the given message. *)
Record File := mkFile {
  createObjectURLThrows : option string
}.

(** The closures handed to [setTimeout]. *)
Inductive TimerBody :=
| InitialCapture (initialTime : Q)
| LoadTimeout (loadingAtRender : bool)
| SeekFallback (time : Q) (handleSeeked : nat).

Record Timer := mkTimer {
  timerId : nat;
  due : N;
  body : TimerBody
}.

(** One invocation of the [onFrameSelect] prop, with the clock value at
    which it happened. *)
Record Call := mkCall {
  frameDataUrl : DataUrl;
  timestamp : Q;
  calledAt : N
}.

Record World := mkWorld {
  (* useState cells *)
  duration : Q;
  currentTime : Q;
  loading : bool;
  error : option string;
  video : option VideoEl;
  canvas : option CanvasEl;
  (* props *)
  selectedTimestamp : option Q;
  onFrameSelectThrows : DataUrl -> Q -> bool;
  (* the cleanup closure of the file effect: its [timeoutId] *)
  fileEffect : option nat;
  (* browser *)
  clock : N;
  timers : list Timer;
  nextId : nat;
  (* observations *)
  calls : list Call;
  consoleErrors : list string
}.

(** What the component renders (lines 149-167): the loading skeleton,
    the error box, or the scrubber.  [if (error)] is false for [null]
    and for the empty string. *)
Inductive Status :=
| Loading
| Error (message : string)
| Ready.

Definition status (w : World) : Status :=
  if loading w then Loading
  else match error w with
       | Some EmptyString => Ready
       | Some message => Error message
       | None => Ready
       end.

(** ** Field updates *)

Definition setDuration (d : Q) (w : World) : World :=
  mkWorld d (currentTime w) (loading w) (error w) (video w) (canvas w)
    (selectedTimestamp w) (onFrameSelectThrows w) (fileEffect w)
    (clock w) (timers w) (nextId w) (calls w) (consoleErrors w).

Definition setCurrentTime (t : Q) (w : World) : World :=
  mkWorld (duration w) t (loading w) (error w) (video w) (canvas w)
    (selectedTimestamp w) (onFrameSelectThrows w) (fileEffect w)
    (clock w) (timers w) (nextId w) (calls w) (consoleErrors w).

Definition setLoading (b : bool) (w : World) : World :=
  mkWorld (duration w) (currentTime w) b (error w) (video w) (canvas w)
    (selectedTimestamp w) (onFrameSelectThrows w) (fileEffect w)
    (clock w) (timers w) (nextId w) (calls w) (consoleErrors w).

Definition setError (e : option string) (w : World) : World :=
  mkWorld (duration w) (currentTime w) (loading w) e (video w) (canvas w)
    (selectedTimestamp w) (onFrameSelectThrows w) (fileEffect w)
    (clock w) (timers w) (nextId w) (calls w) (consoleErrors w).

Definition setVideo (v : option VideoEl) (w : World) : World :=
  mkWorld (duration w) (currentTime w) (loading w) (error w) v (canvas w)
    (selectedTimestamp w) (onFrameSelectThrows w) (fileEffect w)
    (clock w) (timers w) (nextId w) (calls w) (consoleErrors w).

Definition setCanvas (c : option CanvasEl) (w : World) : World :=
  mkWorld (duration w) (currentTime w) (loading w) (error w) (video w) c
    (selectedTimestamp w) (onFrameSelectThrows w) (fileEffect w)
    (clock w) (timers w) (nextId w) (calls w) (consoleErrors w).

Definition withSelectedTimestamp (s : option Q) (w : World) : World :=
  mkWorld (duration w) (currentTime w) (loading w) (error w) (video w)
    (canvas w) s (onFrameSelectThrows w) (fileEffect w)
    (clock w) (timers w) (nextId w) (calls w) (consoleErrors w).

Definition withFileEffect (e : option nat) (w : World) : World :=
  mkWorld (duration w) (currentTime w) (loading w) (error w) (video w)
    (canvas w) (selectedTimestamp w) (onFrameSelectThrows w) e
    (clock w) (timers w) (nextId w) (calls w) (consoleErrors w).

Definition withClock (n : N) (w : World) : World :=
  mkWorld (duration w) (currentTime w) (loading w) (error w) (video w)
    (canvas w) (selectedTimestamp w) (onFrameSelectThrows w) (fileEffect w)
    n (timers w) (nextId w) (calls w) (consoleErrors w).

Definition withTimers (ts : list Timer) (w : World) : World :=
  mkWorld (duration w) (currentTime w) (loading w) (error w) (video w)
    (canvas w) (selectedTimestamp w) (onFrameSelectThrows w) (fileEffect w)
    (clock w) ts (nextId w) (calls w) (consoleErrors w).

Definition withNextId (n : nat) (w : World) : World :=
  mkWorld (duration w) (currentTime w) (loading w) (error w) (video w)
    (canvas w) (selectedTimestamp w) (onFrameSelectThrows w) (fileEffect w)
    (clock w) (timers w) n (calls w) (consoleErrors w).

Definition withCalls (cs : list Call) (w : World) : World :=
  mkWorld (duration w) (currentTime w) (loading w) (error w) (video w)
    (canvas w) (selectedTimestamp w) (onFrameSelectThrows w) (fileEffect w)
    (clock w) (timers w) (nextId w) cs (consoleErrors w).

Definition withConsoleErrors (l : list string) (w : World) : World :=
  mkWorld (duration w) (currentTime w) (loading w) (error w) (video w)
    (canvas w) (selectedTimestamp w) (onFrameSelectThrows w) (fileEffect w)
    (clock w) (timers w) (nextId w) (calls w) l.

(** ** Handler monad: state and exceptions *)

Inductive Outcome (A : Type) :=
| Returned (a : A) (w : World)
| Thrown (message : string) (w : World).

Arguments Returned {A} a w.
Arguments Thrown {A} message w.

Definition M (A : Type) := World -> Outcome A.

Definition ret {A} (a : A) : M A := fun w => Returned a w.

Definition bind {A B} (m : M A) (k : A -> M B) : M B :=
  fun w => match m w with
           | Returned a w' => k a w'
           | Thrown e w' => Thrown e w'
           end.

Definition throw {A} (e : string) : M A := fun w => Thrown e w.

Definition tryCatch {A} (m : M A) (handler : string -> M A) : M A :=
  fun w => match m w with
           | Returned a w' => Returned a w'
           | Thrown e w' => handler e w'
           end.

Definition modify (f : World -> World) : M unit :=
  fun w => Returned tt (f w).

Definition worldOf {A} (o : Outcome A) : World :=
  match o with
  | Returned _ w => w
  | Thrown _ w => w
  end.

Definition returns {A} (o : Outcome A) : bool :=
  match o with
  | Returned _ _ => true
  | Thrown _ _ => false
  end.

Declare Scope handler_scope.
Delimit Scope handler_scope with handler.
Notation "x <- m ;; k" := (bind m (fun x => k))
  (at level 61, m at next level, right associativity) : handler_scope.
Notation "m ;; k" := (bind m (fun _ => k))
  (at level 61, right associativity) : handler_scope.

Local Open Scope handler_scope.

Definition consoleError (line : string) : M unit :=
  modify (fun w => withConsoleErrors (consoleErrors w ++ [line]) w).

Definition getWorld : M World := fun w => Returned w w.

(** ** The DOM elements *)

Definition theVideo : M VideoEl :=
  fun w => match video w with
           | Some v => Returned v w
           | None => Thrown "TypeError: video is null" w
           end.

Definition theCanvas : M CanvasEl :=
  fun w => match canvas w with
           | Some c => Returned c w
           | None => Thrown "TypeError: canvas is null" w
           end.

Definition withSeekedListeners (l : list (nat * Q)) (v : VideoEl) : VideoEl :=
  mkVideo (mediaDuration v) (videoCurrentTime v) (picture v) (videoWidth v)
    (videoHeight v) l (loadedmetadataListener v) (errorListener v).

Definition withLoadedmetadataListener (l : option (option Q)) (v : VideoEl)
  : VideoEl :=
  mkVideo (mediaDuration v) (videoCurrentTime v) (picture v) (videoWidth v)
    (videoHeight v) (seekedListeners v) l (errorListener v).

Definition withErrorListener (b : bool) (v : VideoEl) : VideoEl :=
  mkVideo (mediaDuration v) (videoCurrentTime v) (picture v) (videoWidth v)
    (videoHeight v) (seekedListeners v) (loadedmetadataListener v) b.

Definition withPicture (p : Q) (v : VideoEl) : VideoEl :=
  mkVideo (mediaDuration v) (videoCurrentTime v) p (videoWidth v)
    (videoHeight v) (seekedListeners v) (loadedmetadataListener v)
    (errorListener v).

Definition clampQ (lo hi x : Q) : Q :=
  if Qle_bool x lo then lo else if Qle_bool hi x then hi else x.

(** [video.currentTime = x].  The media element itself moves the
    position into the media's range once the duration is known; the
    picture follows when the seek completes. *)
Definition seekTo (x : Q) (v : VideoEl) : VideoEl :=
  mkVideo (mediaDuration v)
    (match mediaDuration v with
     | Some d => clampQ 0 d x
     | None => x
     end)
    (picture v) (videoWidth v) (videoHeight v) (seekedListeners v)
    (loadedmetadataListener v) (errorListener v).

(** [video.src = url]: the element drops the previous media. *)
Definition loadSource (v : VideoEl) : VideoEl :=
  mkVideo None 0 0 0 0 (seekedListeners v) (loadedmetadataListener v)
    (errorListener v).

(** The element has learned the media's duration and raster size. *)
Definition withMetadata (d : Q) (vw vh : Z) (v : VideoEl) : VideoEl :=
  mkVideo (Some d) (videoCurrentTime v) (picture v) vw vh (seekedListeners v)
    (loadedmetadataListener v) (errorListener v).

(** [video.duration]; the handler that reads it runs once metadata is
    known. *)
Definition videoDuration (v : VideoEl) : Q :=
  match mediaDuration v with
  | Some d => d
  | None => 0
  end.

Definition updateVideo (f : VideoEl -> VideoEl) : M unit :=
  v <- theVideo ;; modify (setVideo (Some (f v))).

Definition updateCanvas (f : CanvasEl -> CanvasEl) : M unit :=
  c <- theCanvas ;; modify (setCanvas (Some (f c))).

(** Assigning [canvas.width] or [canvas.height] clears the raster. *)
Definition assignWidth (x : Z) (c : CanvasEl) : CanvasEl :=
  mkCanvas x (height c) None (context2d c).

Definition assignHeight (x : Z) (c : CanvasEl) : CanvasEl :=
  mkCanvas (width c) x None (context2d c).

(** [ctx.drawImage(v, 0, 0)]: nothing is drawn while the element has no
    media data. *)
Definition drawImage (v : VideoEl) (c : CanvasEl) : CanvasEl :=
  mkCanvas (width c) (height c)
    (match mediaDuration v with
     | Some _ => Some (picture v)
     | None => bitmap c
     end)
    (context2d c).

Definition toDataURL (c : CanvasEl) : DataUrl :=
  mkDataUrl (width c) (height c) (bitmap c).

Definition withContext2d (b : bool) (c : CanvasEl) : CanvasEl :=
  mkCanvas (width c) (height c) (bitmap c) b.

Definition removeSeekedListener (h : nat) : M unit :=
  updateVideo (fun v =>
    withSeekedListeners
      (filter (fun l => negb (Nat.eqb (fst l) h)) (seekedListeners v)) v).

(** ** Timers *)

(** The queue is kept in firing order: by due time, and among equal due
    times in the order of the [setTimeout] calls. *)
Fixpoint enqueue (t : Timer) (q : list Timer) : list Timer :=
  match q with
  | [] => [t]
  | x :: q' => if (due t <? due x)%N then t :: q else x :: enqueue t q'
  end.

Definition setTimeout (b : TimerBody) (delay : N) : M nat :=
  fun w =>
    let id := nextId w in
    Returned id
      (withNextId (S id)
         (withTimers (enqueue (mkTimer id (clock w + delay) b) (timers w)) w)).

Definition clearTimeout (id : nat) : M unit :=
  modify (fun w =>
    withTimers (filter (fun t => negb (Nat.eqb (timerId t) id)) (timers w)) w).

(** ** The component's functions *)

(** [selectedTimestamp ?? 0], lines 16 and 58. *)
Definition initialTimeOf (selected : option Q) : Q :=
  match selected with
  | Some t => t
  | None => 0
  end.

(** The [onFrameSelect] prop: the invocation is observed, then the
    caller's function returns or throws. *)
Definition onFrameSelect (frame : DataUrl) (time : Q) : M unit :=
  fun w =>
    let w' := withCalls (calls w ++ [mkCall frame time (clock w)]) w in
    if onFrameSelectThrows w frame time
    then Thrown "Error thrown by onFrameSelect" w'
    else Returned tt w'.

(** Lines 100-118. *)
Definition captureFrame (time : Q) : M unit :=
  tryCatch
    (c <- theCanvas ;;
     if negb (context2d c) then
       consoleError "Failed to get canvas context"
     else
       v <- theVideo ;;
       updateCanvas (assignWidth (videoWidth v)) ;;
       updateCanvas (assignHeight (videoHeight v)) ;;
       updateCanvas (drawImage v) ;;
       c' <- theCanvas ;;
       onFrameSelect (toDataURL c') time)
    (fun err => consoleError "Error capturing frame:").

(** Lines 129-132; [h] is the identity of this closure. *)
Definition handleSeeked (time : Q) (h : nat) : M unit :=
  captureFrame time ;;
  removeSeekedListener h.

(** [video.addEventListener('seeked', handleSeeked, { once: true })] for
    a fresh closure. *)
Definition addSeekedListener (time : Q) : M nat :=
  fun w =>
    let h := nextId w in
    bind (updateVideo (fun v =>
            withSeekedListeners (seekedListeners v ++ [(h, time)]) v))
         (fun _ => ret h)
         (withNextId (S h) w).

(** Lines 120-141, with [time] the parsed value of the range input. *)
Definition handleSliderChange (time : Q) : M unit :=
  modify (setCurrentTime time) ;;
  w <- getWorld ;;
  match video w, canvas w with
  | Some _, Some _ =>
      updateVideo (seekTo time) ;;
      h <- addSeekedListener time ;;
      _ <- setTimeout (SeekFallback time h) 500 ;;
      ret tt
  | _, _ => ret tt
  end.

(** Lines 54-67; [selected] is the [selectedTimestamp] of the render whose
    effect created the closure. *)
Definition handleLoadedMetadata (selected : option Q) : M unit :=
  v <- theVideo ;;
  modify (setDuration (videoDuration v)) ;;
  let initialTime := initialTimeOf selected in
  modify (setCurrentTime initialTime) ;;
  updateVideo (seekTo initialTime) ;;
  _ <- setTimeout (InitialCapture initialTime) 100 ;;
  ret tt.

(** Lines 69-73. *)
Definition handleError : M unit :=
  consoleError "Video error:" ;;
  modify (setError (Some "Failed to load video. Please try a different file.")) ;;
  modify (setLoading false).

(** What a timer runs when it fires: lines 63-66, 79-84 and 137-140. *)
Definition timerBody (b : TimerBody) : M unit :=
  match b with
  | InitialCapture initialTime =>
      captureFrame initialTime ;;
      modify (setLoading false)
  | LoadTimeout loadingAtRender =>
      if loadingAtRender then
        modify (setError (Some "Video took too long to load. Please try again.")) ;;
        modify (setLoading false)
      else ret tt
  | SeekFallback time h =>
      removeSeekedListener h ;;
      captureFrame time
  end.

(** The cleanup returned by the file effect, lines 86-91. *)
Definition fileEffectCleanup : M unit :=
  w <- getWorld ;;
  match fileEffect w with
  | Some timeoutId =>
      clearTimeout timeoutId ;;
      updateVideo (fun v =>
        withErrorListener false (withLoadedmetadataListener None v)) ;;
      modify (withFileEffect None)
  | None => ret tt
  end.

(** The file effect, lines 44-98.  The closure of the load timeout reads
    the [loading] of the render that ran the effect. *)
Definition runFileEffect (videoFile : File) : M unit :=
  w <- getWorld ;;
  match video w, canvas w with
  | Some _, Some _ =>
      let loadingAtRender := loading w in
      let selected := selectedTimestamp w in
      modify (setLoading true) ;;
      modify (setError None) ;;
      tryCatch
        (match createObjectURLThrows videoFile with
         | Some message => throw message
         | None => ret tt
         end ;;
         updateVideo loadSource ;;
         updateVideo (fun v =>
           withErrorListener true
             (withLoadedmetadataListener (Some selected) v)) ;;
         timeoutId <- setTimeout (LoadTimeout loadingAtRender) 10000 ;;
         modify (withFileEffect (Some timeoutId)))
        (fun msg =>
           consoleError "Video initialization error:" ;;
           modify (setError (Some msg)) ;;
           modify (setLoading false))
  | _, _ => ret tt
  end.

(** ** The browser's event loop *)

(** An exception that leaves a handler is reported by the browser and
    the loop goes on with the store as the handler left it. *)
Definition exec (m : M unit) (w : World) : World := worldOf (m w).

(** Dispatch of ['seeked'] to one listener registered with
    [{ once: true }]: it is removed, then called. *)
Definition dispatchSeeked (w : World) (l : nat * Q) : World :=
  exec (removeSeekedListener (fst l) ;; handleSeeked (snd l) (fst l)) w.

(** A timer fires at its due time. *)
Definition runTimer (w : World) (t : Timer) : World :=
  exec (timerBody (body t)) (withClock (due t) w).

Definition isDue (target : N) (t : Timer) : bool := (due t <=? target)%N.

Inductive Event :=
| EvLoadedMetadata (d : Q) (vw vh : Z)
| EvError
| EvSeeked
| EvSlider (value : Q)
| EvWait (ms : N)
| EvProps (videoFile : File) (selected : option Q)
| EvContext (available : bool).

Definition step (w : World) (ev : Event) : World :=
  match ev with
  | EvLoadedMetadata d vw vh =>
      match video w with
      | Some v =>
          let v' := withMetadata d vw vh v in
          match loadedmetadataListener v with
          | Some selected =>
              exec (handleLoadedMetadata selected)
                   (setVideo (Some (withLoadedmetadataListener None v')) w)
          | None => setVideo (Some v') w
          end
      | None => w
      end
  | EvError =>
      match video w with
      | Some v =>
          if errorListener v
          then exec handleError (setVideo (Some (withErrorListener false v)) w)
          else w
      | None => w
      end
  | EvSeeked =>
      match video w with
      | Some v =>
          fold_left dispatchSeeked (seekedListeners v)
            (setVideo (Some (withPicture (videoCurrentTime v) v)) w)
      | None => w
      end
  | EvSlider value => exec (handleSliderChange value) w
  | EvWait ms =>
      let target := (clock w + ms)%N in
      withClock target
        (fold_left runTimer (filter (isDue target) (timers w))
           (withTimers (filter (fun t => negb (isDue target t)) (timers w)) w))
  | EvProps videoFile selected =>
      exec (fileEffectCleanup ;; runFileEffect videoFile)
           (withSelectedTimestamp selected w)
  | EvContext available =>
      exec (updateCanvas (withContext2d available)) w
  end.

Definition run (w : World) (evs : list Event) : World := fold_left step evs w.

(** The first render: [useState] initial values, no elements yet. *)
Definition firstRender (selected : option Q) (throws : DataUrl -> Q -> bool)
  : World :=
  mkWorld 0 (initialTimeOf selected) true None
    None None selected throws None 0%N [] 0%nat [] [].

(** The element effect, lines 23-41: a fresh [<video>] and a fresh
    [<canvas>] of the default size. *)
Definition createElements (context : bool) (w : World) : World :=
  setCanvas (Some (mkCanvas 300 150 None context))
    (setVideo (Some (mkVideo None 0 0 0 0 [] None false)) w).

(** Mounting the component with a file: both effects have run. *)
Definition mount (videoFile : File) (selected : option Q)
    (throws : DataUrl -> Q -> bool) (context : bool) : World :=
  exec (runFileEffect videoFile)
       (createElements context (firstRender selected throws)).

(** ** Scenario vocabulary *)

Definition goodFile : File := mkFile None.
Definition neverThrows : DataUrl -> Q -> bool := fun _ _ => false.
Definition alwaysThrows : DataUrl -> Q -> bool := fun _ _ => true.

Definition timestamps (w : World) : list Q := map timestamp (calls w).

(** A thirty-second clip of 640x480 whose metadata arrives 50 ms after
    mount, with the initial capture done: the scrubber is on screen. *)
Definition readyWorld : World :=
  run (mount goodFile None neverThrows true)
      [EvWait 50; EvLoadedMetadata 30 640 480; EvWait 100].

(** The observable part of a call: which timestamp was delivered, and
    when. *)
Definition deliveries (w : World) : list (Q * N) :=
  map (fun c => (timestamp c, calledAt c)) (calls w).

(** The captures the pending timers will attempt, with their due
    times. *)
Definition captureOf (t : Timer) : list (Q * N) :=
  match body t with
  | InitialCapture x => [(x, due t)]
  | SeekFallback x _ => [(x, due t)]
  | LoadTimeout _ => []
  end.

Definition pendingCaptures (ts : list Timer) : list (Q * N) :=
  flat_map captureOf ts.

(** Both elements exist and the canvas hands out a 2d context. *)
Definition hasContext (w : World) : bool :=
  match video w, canvas w with
  | Some _, Some c => context2d c
  | _, _ => false
  end.

(** The raster after lines 108-111. *)
Definition renderFrame (v : VideoEl) (c : CanvasEl) : CanvasEl :=
  drawImage v (assignHeight (videoHeight v) (assignWidth (videoWidth v) c)).

(** The store after a capture that reached the callback. *)
Definition captured (time : Q) (v : VideoEl) (c : CanvasEl) (w : World)
  : World :=
  let c' := renderFrame v c in
  let w' := withCalls (calls w ++ [mkCall (toDataURL c') time (clock w)])
              (setCanvas (Some c') w) in
  if onFrameSelectThrows w (toDataURL c') time
  then withConsoleErrors (consoleErrors w ++ ["Error capturing frame:"]) w'
  else w'.

(** The scrubber is on screen (lines 149-216). *)
Definition sliderRendered (w : World) : bool :=
  negb (loading w) &&
  match error w with
  | Some EmptyString => true
  | Some _ => false
  | None => true
  end &&
  negb (Qle_bool (duration w) 0).

(** ** Vocabulary of the statements *)

(** Unfolds the handler monad and the element accessors, leaving the
    tests on the store. *)
Ltac handler_unfold :=
  cbv beta iota delta
    [bind ret throw tryCatch modify getWorld consoleError theVideo theCanvas
     updateVideo updateCanvas onFrameSelect removeSeekedListener setTimeout
     clearTimeout addSeekedListener exec worldOf returns].

(** The events of a scrubbing session on a loaded file: slider changes,
    seek completions and the passing of time. *)
Definition scrubbing (ev : Event) : bool :=
  match ev with
  | EvSlider _ | EvSeeked | EvWait _ => true
  | _ => false
  end.

(** Slider changes and the passing of time only: the decoder never
    signals a completed seek. *)
Definition quiet (ev : Event) : bool :=
  match ev with
  | EvSlider _ | EvWait _ => true
  | _ => false
  end.

Definition isRequest (ev : Event) : bool :=
  match ev with
  | EvSlider _ => true
  | _ => false
  end.

(** The number of slider changes of a trace. *)
Definition requests (evs : list Event) : nat :=
  List.length (filter isRequest evs).

Fixpoint elapsed (evs : list Event) : N :=
  match evs with
  | [] => 0
  | EvWait ms :: rest => ms + elapsed rest
  | _ :: rest => elapsed rest
  end.

(** The fallback captures a trace schedules when it starts at clock
    [now]: one per slider change, 500 ms after it. *)
Fixpoint scheduled (now : N) (evs : list Event) : list (Q * N) :=
  match evs with
  | [] => []
  | EvSlider value :: rest => (value, (now + 500)%N) :: scheduled now rest
  | EvWait ms :: rest => scheduled (now + ms) rest
  | _ :: rest => scheduled now rest
  end.

(** The elements exist with a context, and every pending capture is due
    in the next 500 ms. *)
Definition sound (w : World) : Prop :=
  hasContext w = true /\
  Forall (fun p => (clock w < snd p <= clock w + 500)%N)
         (pendingCaptures (timers w)).

(** [w'] continues [w0]: the calls of [w0] followed by [extra]. *)
Definition extends (w0 w' : World) (extra : list (Q * N)) : Prop :=
  deliveries w' = deliveries w0 ++ extra.

(** The count the specification promises, in its own words: a request
    settles at the first seek completion after it or once 500 ms have
    passed, and it counts if no later request was made before that. *)
Fixpoint settlesAsLast (budget : N) (rest : list Event) : bool :=
  match rest with
  | [] => false
  | EvSlider _ :: _ => false
  | EvSeeked :: _ => true
  | EvWait ms :: rest' =>
      if (budget <=? ms)%N then true else settlesAsLast (budget - ms) rest'
  | _ :: rest' => settlesAsLast budget rest'
  end.

Fixpoint promisedDeliveries (evs : list Event) : nat :=
  match evs with
  | [] => 0
  | EvSlider _ :: rest =>
      (if settlesAsLast 500 rest then 1 else 0) + promisedDeliveries rest
  | _ :: rest => promisedDeliveries rest
  end.

(** The ['seeked'] listeners currently registered. *)
Definition listeners (w : World) : list (nat * Q) :=
  match video w with
  | Some v => seekedListeners v
  | None => []
  end.

(** No request is outstanding: no capture is pending and no ['seeked']
    listener is registered. *)
Definition idle (w : World) : Prop :=
  hasContext w = true /\
  pendingCaptures (timers w) = [] /\
  listeners w = [].

(** The session on a good file, stage by stage: mounted, some time
    later, after the metadata event, and after the first capture. *)
Definition mounted (selected : option Q) (throws : DataUrl -> Q -> bool)
    (now : N) : World :=
  mkWorld 0 (initialTimeOf selected) true None
    (Some (mkVideo None 0 0 0 0 [] (Some selected) true))
    (Some (mkCanvas 300 150 None true))
    selected throws (Some 0%nat) now
    [mkTimer 0 10000 (LoadTimeout true)] 1%nat [] [].

Definition metadataLoaded (selected : option Q)
    (throws : DataUrl -> Q -> bool) (now : N) (d : Q) (vw vh : Z) : World :=
  let t0 := initialTimeOf selected in
  mkWorld d t0 true None
    (Some (mkVideo (Some d) (clampQ 0 d t0) 0 vw vh [] None true))
    (Some (mkCanvas 300 150 None true))
    selected throws (Some 0%nat) now
    [mkTimer 1 (now + 100) (InitialCapture t0);
     mkTimer 0 10000 (LoadTimeout true)] 2%nat [] [].

Definition firstCaptured (selected : option Q)
    (throws : DataUrl -> Q -> bool) (now : N) (d : Q) (vw vh : Z) : World :=
  let t0 := initialTimeOf selected in
  let v := mkVideo (Some d) (clampQ 0 d t0) 0 vw vh [] None true in
  let c := renderFrame v (mkCanvas 300 150 None true) in
  mkWorld d t0 false None (Some v) (Some c)
    selected throws (Some 0%nat) (now + 100)
    [mkTimer 0 10000 (LoadTimeout true)] 2%nat
    [mkCall (toDataURL c) t0 (now + 100)]
    (if throws (toDataURL c) t0 then ["Error capturing frame:"] else []).

(** Both elements exist but the canvas hands out no 2d context. *)
Definition lostContext (w : World) : bool :=
  match video w, canvas w with
  | Some _, Some c => negb (context2d c)
  | _, _ => false
  end.

Definition canvasSize (c : CanvasEl) : Z * Z := (width c, height c).
Definition videoSize (v : VideoEl) : Z * Z := (videoWidth v, videoHeight v).

(** The queue is in firing order: no timer is due before one that
    precedes it. *)
Fixpoint inFiringOrder (ts : list Timer) : Prop :=
  match ts with
  | [] => True
  | t :: rest =>
      Forall (fun x => (due t <= due x)%N) rest /\ inFiringOrder rest
  end.

(** [sound], with the queue in firing order. *)
Definition orderly (w : World) : Prop :=
  sound w /\ inFiringOrder (timers w).

(** Everything delivered so far, followed by what the pending timers
    will still deliver, in the order of the queue. *)
Definition ledger (w : World) : list (Q * N) :=
  deliveries w ++ pendingCaptures (timers w).

(** Every pending capture and every registered listener carries a
    timestamp from the set [allowed]. *)
Definition withinAllowed (allowed : Q -> Prop) (w : World) : Prop :=
  (forall p, In p (pendingCaptures (timers w)) -> allowed (fst p)) /\
  (forall l, In l (listeners w) -> allowed (snd l)).

Definition isLoadTimeout (t : Timer) : bool :=
  match body t with
  | LoadTimeout _ => true
  | _ => false
  end.

(** The queue once the cleanup of the file effect has cleared its load
    timeout (line 87). *)
Definition timersAfterCleanup (w : World) : list Timer :=
  match fileEffect w with
  | Some id => filter (fun t => negb (Nat.eqb (timerId t) id)) (timers w)
  | None => timers w
  end.

(** The bookkeeping of timers and identifiers that every reachable store
    satisfies: identifiers are fresh, timers are distinct, and a pending
    load timeout is the one of the current file effect. *)
Definition tidyQueue (ts : list Timer) (next : nat) (effect : option nat)
  : Prop :=
  NoDup (map timerId ts) /\
  (forall t, In t ts -> (timerId t < next)%nat) /\
  (forall id, effect = Some id -> (id < next)%nat) /\
  (forall t, In t ts -> isLoadTimeout t = true <-> effect = Some (timerId t)).

Definition tidy (w : World) : Prop :=
  tidyQueue (timers w) (nextId w) (fileEffect w).

(** What holds in every store reachable while the canvas keeps its
    context. *)
Definition wellFormed (w : World) : Prop := orderly w /\ tidy w.

(** Events under which the canvas keeps handing out its context. *)
Definition keepsContext (ev : Event) : bool :=
  match ev with
  | EvContext false => false
  | _ => true
  end.

(** The timers whose body calls [setLoading(false)]: the initial
    capture, and a load timeout whose closure saw [loading = true]. *)
Definition endsLoading (t : Timer) : bool :=
  match body t with
  | InitialCapture _ => true
  | LoadTimeout loadingAtRender => loadingAtRender
  | SeekFallback _ _ => false
  end.

(** Unmounting runs the cleanups of both effects: lines 86-91, and lines
    37-40, which only detach the two elements from the document.  The
    closures of the pending timers keep the elements. *)
Definition unmount (w : World) : World := exec fileEffectCleanup w.

(** Events that come from the decoder, the clock or the canvas, not from
    the user or the parent component. *)
Definition passive (ev : Event) : bool :=
  match ev with
  | EvSlider _ | EvProps _ _ => false
  | _ => true
  end.

(** Nothing is scheduled and nothing listens: no timer is pending, no
    media listener is registered, and nothing was delivered. *)
Definition silent (w : World) : Prop :=
  timers w = [] /\ calls w = [] /\
  exists v, video w = Some v /\
    seekedListeners v = [] /\ loadedmetadataListener v = None /\
    errorListener v = false.

(** A second file swapped in after the metadata of the first arrived and
    before its initial capture was made. *)
Definition swappedEarly (selected selected' : option Q)
    (throws : DataUrl -> Q -> bool) (now : N) (d : Q) : World :=
  mkWorld d (initialTimeOf selected) true None
    (Some (mkVideo None 0 0 0 0 [] (Some selected') true))
    (Some (mkCanvas 300 150 None true))
    selected' throws (Some 2%nat) now
    [mkTimer 1 (now + 100) (InitialCapture (initialTimeOf selected));
     mkTimer 2 (now + 10000) (LoadTimeout true)] 3%nat [] [].

(** ** The time label (lines 143-147) *)

(** [String(n)] for a whole number. *)
Definition stringOfZ (n : Z) : string :=
  DecimalString.NilZero.string_of_int (Z.to_int n).

(** [s.padStart(target, fill)] with a one-character [fill]. *)
Fixpoint fillString (n : nat) (fill : Ascii.ascii) : string :=
  match n with
  | O => EmptyString
  | S n' => String fill (fillString n' fill)
  end.

Definition padStart (target : nat) (fill : Ascii.ascii) (s : string) : string :=
  (fillString (target - String.length s) fill ++ s)%string.

(** Rounding towards zero, and the [%] of JavaScript, whose result has
    the sign of the dividend. *)
Definition Qtruncate (x : Q) : Z :=
  if Qle_bool 0 x then Qfloor x else Qceiling x.

Definition jsRemainder (x y : Q) : Q :=
  x - y * inject_Z (Qtruncate (x / y)).

Definition formatTime (seconds : Q) : string :=
  let mins := Qfloor (seconds / 60) in
  let secs := Qfloor (jsRemainder seconds 60) in
  (stringOfZ mins ++ ":" ++ padStart 2 "0"%char (stringOfZ secs))%string.

(** The two decimal digits of a number below 100. *)
Definition digitChar (n : Z) : Ascii.ascii :=
  Ascii.ascii_of_nat (48 + Z.to_nat n).

Definition twoDigits (n : Z) : string :=
  String (digitChar (n / 10)) (String (digitChar (n mod 10)) EmptyString).

(** Evaluates the innermost [step] of the trace in hypothesis [E],
    leaving the tests on the clock for rewriting. *)
Ltac eval_inner_step_in E :=
  match type of E with
  | context [step ?w ?e] =>
      lazymatch w with
      | context [step _ _] => fail
      | _ =>
          let t := eval cbv -[N.add N.ltb N.leb clampQ initialTimeOf]
                   in (step w e) in
          change (step w e) with t in E
      end
  end.

(** * Properties *)

(** ** The frame capturer *)

Lemma captureFrame_with_context (time : Q) (w : World) v c :
  video w = Some v -> canvas w = Some c -> context2d c = true ->
  captureFrame time w = Returned tt (captured time v c w).
Proof.
  intros Hv Hc Hctx.
  unfold captureFrame, captured. handler_unfold.
  repeat (progress (rewrite ?Hc, ?Hctx, ?Hv; cbn)).
  destruct (onFrameSelectThrows w _ time); reflexivity.
Qed.

Lemma captureFrame_without_context (time : Q) (w : World) c :
  canvas w = Some c -> context2d c = false ->
  captureFrame time w =
  Returned tt
    (withConsoleErrors (consoleErrors w ++ ["Failed to get canvas context"]) w).
Proof.
  intros Hc Hctx.
  unfold captureFrame. handler_unfold.
  rewrite Hc, Hctx. reflexivity.
Qed.

Lemma captureFrame_returns (time : Q) (w : World) :
  returns (captureFrame time w) = true.
Proof.
  destruct (canvas w) as [c|] eqn:Hc.
  - destruct (context2d c) eqn:Hctx.
    + destruct (video w) as [v|] eqn:Hv.
      * rewrite (captureFrame_with_context time w v c Hv Hc Hctx).
        reflexivity.
      * unfold captureFrame. handler_unfold.
        repeat (progress (rewrite ?Hc, ?Hctx, ?Hv; cbn)). reflexivity.
    + rewrite (captureFrame_without_context time w c Hc Hctx). reflexivity.
  - unfold captureFrame. handler_unfold. rewrite Hc. reflexivity.
Qed.

(** The slider handler never throws. *)
Lemma handleSliderChange_returns (value : Q) (w : World) :
  returns (handleSliderChange value w) = true.
Proof.
  unfold handleSliderChange. handler_unfold. cbn.
  destruct (video w) as [v|] eqn:Hv; [|reflexivity].
  destruct (canvas w) as [c|] eqn:Hc; [|reflexivity].
  repeat (progress (rewrite ?Hv, ?Hc; cbn)). reflexivity.
Qed.

(** While the loading skeleton or the error box is rendered there is no
    scrubber to move. *)
Lemma sliderRendered_only_when_ready (w : World) :
  sliderRendered w = true -> status w = Ready.
Proof.
  unfold sliderRendered, status.
  destruct (loading w); [discriminate|].
  destruct (error w) as [[|c message]|]; [reflexivity | discriminate | reflexivity].
Qed.

(** What a capture with a context leaves behind. *)
Lemma captureFrame_effect (time : Q) (w : World) :
  hasContext w = true ->
  exists w',
    captureFrame time w = Returned tt w' /\
    hasContext w' = true /\
    video w' = video w /\
    timers w' = timers w /\
    clock w' = clock w /\
    deliveries w' = deliveries w ++ [(time, clock w)] /\
    loading w' = loading w /\ error w' = error w /\
    currentTime w' = currentTime w /\ duration w' = duration w.
Proof.
  unfold hasContext. intros H.
  destruct (video w) as [v|] eqn:Hv; [|discriminate].
  destruct (canvas w) as [c|] eqn:Hc; [|discriminate].
  exists (captured time v c w). split.
  - now apply captureFrame_with_context.
  - unfold captured, deliveries.
    destruct (onFrameSelectThrows w _ time); cbn;
      rewrite ?Hv, ?map_app; cbn; repeat split; try assumption; reflexivity.
Qed.

(** ** What a capture never touches *)

(** Whatever the store, a capture leaves the session state, the timer
    queue, the video element and the identifiers alone. *)
Lemma captureFrame_leaves_session (time : Q) (w : World) :
  let w' := exec (captureFrame time) w in
  loading w' = loading w /\ error w' = error w /\
  currentTime w' = currentTime w /\ duration w' = duration w /\
  timers w' = timers w /\ clock w' = clock w /\ video w' = video w /\
  nextId w' = nextId w /\ fileEffect w' = fileEffect w /\
  selectedTimestamp w' = selectedTimestamp w.
Proof.
  cbv zeta. unfold exec.
  destruct (canvas w) as [c|] eqn:Hc.
  - destruct (context2d c) eqn:Hctx.
    + destruct (video w) as [v|] eqn:Hv.
      * rewrite (captureFrame_with_context time w v c Hv Hc Hctx).
        unfold captured. cbn [worldOf].
        destruct (onFrameSelectThrows w _ time); cbn; rewrite ?Hv; tauto.
      * unfold captureFrame. handler_unfold.
        repeat (progress (rewrite ?Hc, ?Hctx, ?Hv; cbn)). rewrite ?Hv. tauto.
    + rewrite (captureFrame_without_context time w c Hc Hctx). cbn. tauto.
  - unfold captureFrame. handler_unfold. rewrite Hc. cbn. tauto.
Qed.

(** ** Timers and listeners, one at a time *)

Lemma runTimer_effect (w : World) (t : Timer) :
  hasContext w = true ->
  hasContext (runTimer w t) = true /\
  timers (runTimer w t) = timers w /\
  clock (runTimer w t) = due t /\
  deliveries (runTimer w t) = deliveries w ++ captureOf t.
Proof.
  intros H. unfold runTimer, captureOf, timerBody.
  destruct (body t) as [x | b | x h].
  - destruct (captureFrame_effect x (withClock (due t) w) H)
      as (w' & E & Hc' & _ & Ht & Hk & Hd & _).
    handler_unfold. rewrite E.
    unfold hasContext, deliveries in *. cbn in *. rewrite Ht, Hk, Hd.
    repeat split; try reflexivity; assumption.
  - destruct b; handler_unfold; cbn; rewrite app_nil_r;
      repeat split; try reflexivity; assumption.
  - unfold hasContext in H.
    destruct (video w) as [v|] eqn:Hv; [|discriminate].
    destruct (canvas w) as [c|] eqn:Hc; [|discriminate].
    handler_unfold. cbn. rewrite Hv.
    match goal with
    | |- context [captureFrame x ?w0] =>
        destruct (captureFrame_effect x w0) as (w' & E & Hc' & _ & Ht & Hk & Hd & _);
        [unfold hasContext; cbn; rewrite Hc; exact H|]
    end.
    rewrite E. cbn. rewrite Ht, Hk, Hd.
    repeat split; try reflexivity; assumption.
Qed.

Lemma dispatchSeeked_effect (w : World) (l : nat * Q) :
  hasContext w = true ->
  hasContext (dispatchSeeked w l) = true /\
  timers (dispatchSeeked w l) = timers w /\
  clock (dispatchSeeked w l) = clock w /\
  deliveries (dispatchSeeked w l) = deliveries w ++ [(snd l, clock w)].
Proof.
  intros H. unfold hasContext in H.
  destruct (video w) as [v|] eqn:Hv; [|discriminate].
  destruct (canvas w) as [c|] eqn:Hc; [|discriminate].
  unfold dispatchSeeked, handleSeeked. handler_unfold. cbn. rewrite Hv.
  match goal with
  | |- context [captureFrame (snd l) ?w0] =>
      destruct (captureFrame_effect (snd l) w0)
        as (w' & E & Hc' & Hv' & Ht & Hk & Hd & _);
      [unfold hasContext; cbn; rewrite Hc; exact H|]
  end.
  rewrite E. unfold hasContext, deliveries in *. cbn in *.
  rewrite Hv' in *. cbn. rewrite Ht, Hk, Hd.
  repeat split; try reflexivity. exact Hc'.
Qed.

Lemma handleSliderChange_effect (w : World) (value : Q) :
  hasContext w = true ->
  let w' := step w (EvSlider value) in
  hasContext w' = true /\
  clock w' = clock w /\
  deliveries w' = deliveries w /\
  timers w' =
    enqueue (mkTimer (S (nextId w)) (clock w + 500)
               (SeekFallback value (nextId w)))
            (timers w).
Proof.
  intros H. unfold hasContext in H.
  destruct (video w) as [v|] eqn:Hv; [|discriminate].
  destruct (canvas w) as [c|] eqn:Hc; [|discriminate].
  cbn zeta. unfold step, handleSliderChange. handler_unfold. cbn.
  unfold hasContext.
  repeat (progress (rewrite ?Hv, ?Hc; cbn)).
  repeat split; try reflexivity; assumption.
Qed.

(** ** The timer queue *)

Lemma In_enqueue (t x : Timer) (q : list Timer) :
  In x (enqueue t q) <-> x = t \/ In x q.
Proof.
  induction q as [|y q IH]; cbn.
  - intuition congruence.
  - destruct (due t <? due y)%N; cbn; rewrite ?IH; intuition congruence.
Qed.

Lemma In_pendingCaptures (p : Q * N) (ts : list Timer) :
  In p (pendingCaptures ts) <-> exists t, In t ts /\ In p (captureOf t).
Proof. unfold pendingCaptures. apply in_flat_map. Qed.

Lemma In_pendingCaptures_enqueue (p : Q * N) (t : Timer) (q : list Timer) :
  In p (pendingCaptures (enqueue t q)) <->
  In p (captureOf t) \/ In p (pendingCaptures q).
Proof.
  rewrite !In_pendingCaptures. split.
  - intros (x & Hx & Hp). apply In_enqueue in Hx. destruct Hx as [->|Hx].
    + now left.
    + right. now exists x.
  - intros [Hp | (x & Hx & Hp)].
    + exists t. split; [apply In_enqueue; now left | exact Hp].
    + exists x. split; [apply In_enqueue; now right | exact Hp].
Qed.

Lemma length_pendingCaptures_enqueue (t : Timer) (q : list Timer) :
  length (pendingCaptures (enqueue t q)) =
  (length (captureOf t) + length (pendingCaptures q))%nat.
Proof.
  induction q as [|y q IH]; cbn.
  - now rewrite app_nil_r.
  - destruct (due t <? due y)%N; cbn; rewrite !length_app.
    + reflexivity.
    + fold (pendingCaptures (enqueue t q)). rewrite IH.
      fold (pendingCaptures q). lia.
Qed.

Lemma length_pendingCaptures_filter (f : Timer -> bool) (ts : list Timer) :
  (length (pendingCaptures (filter f ts)) +
   length (pendingCaptures (filter (fun t => negb (f t)) ts)))%nat =
  length (pendingCaptures ts).
Proof.
  induction ts as [|t ts IH]; cbn; [reflexivity|].
  fold (pendingCaptures ts).
  destruct (f t); cbn; rewrite !length_app;
    fold (pendingCaptures (filter f ts));
    fold (pendingCaptures (filter (fun t => negb (f t)) ts)); lia.
Qed.

Lemma In_pendingCaptures_filter (f : Timer -> bool) (p : Q * N) ts :
  In p (pendingCaptures ts) <->
  In p (pendingCaptures (filter f ts)) \/
  In p (pendingCaptures (filter (fun t => negb (f t)) ts)).
Proof.
  rewrite !In_pendingCaptures. split.
  - intros (t & Ht & Hp). destruct (f t) eqn:E.
    + left. exists t. split; [apply filter_In; now split | exact Hp].
    + right. exists t. split; [apply filter_In; split; [exact Ht|]| exact Hp].
      now rewrite E.
  - intros [(t & Ht & Hp) | (t & Ht & Hp)]; apply filter_In in Ht;
      exists t; tauto.
Qed.

(** A capture is attempted at the due time of its timer. *)
Lemma captureOf_due (p : Q * N) (t : Timer) :
  In p (captureOf t) -> snd p = due t.
Proof.
  unfold captureOf.
  destruct (body t); cbn; intros H; try tauto;
    destruct H as [<-|[]]; reflexivity.
Qed.

(** ** Time passing and seek completion *)

Lemma fold_runTimer_effect (ts : list Timer) (w : World) :
  hasContext w = true ->
  hasContext (fold_left runTimer ts w) = true /\
  timers (fold_left runTimer ts w) = timers w /\
  deliveries (fold_left runTimer ts w) = deliveries w ++ pendingCaptures ts.
Proof.
  revert w. induction ts as [|t ts IH]; intros w H; cbn.
  - now rewrite app_nil_r.
  - destruct (runTimer_effect w t H) as (H1 & Ht & _ & Hd).
    destruct (IH _ H1) as (H2 & Ht2 & Hd2).
    rewrite Ht2, Hd2, Ht, Hd, <- app_assoc. auto.
Qed.

Lemma fold_dispatchSeeked_effect (ls : list (nat * Q)) (w : World) :
  hasContext w = true ->
  hasContext (fold_left dispatchSeeked ls w) = true /\
  timers (fold_left dispatchSeeked ls w) = timers w /\
  clock (fold_left dispatchSeeked ls w) = clock w /\
  deliveries (fold_left dispatchSeeked ls w) =
    deliveries w ++ map (fun l => (snd l, clock w)) ls.
Proof.
  revert w. induction ls as [|l ls IH]; intros w H; cbn.
  - now rewrite app_nil_r.
  - destruct (dispatchSeeked_effect w l H) as (H1 & Ht & Hk & Hd).
    destruct (IH _ H1) as (H2 & Ht2 & Hk2 & Hd2).
    rewrite Ht2, Hk2, Hd2, Ht, Hk, Hd, <- app_assoc. auto.
Qed.

Lemma wait_effect (w : World) (ms : N) :
  hasContext w = true ->
  let w' := step w (EvWait ms) in
  hasContext w' = true /\
  clock w' = (clock w + ms)%N /\
  timers w' =
    filter (fun t => negb (isDue (clock w + ms) t)) (timers w) /\
  deliveries w' =
    deliveries w ++ pendingCaptures (filter (isDue (clock w + ms)) (timers w)).
Proof.
  intros H w'. subst w'. unfold step.
  match goal with
  | |- context [fold_left runTimer ?ts ?w0] =>
      destruct (fold_runTimer_effect ts w0) as (H1 & Ht & Hd); [exact H|]
  end.
  unfold hasContext, deliveries in *. cbn in *. rewrite Ht, Hd. auto.
Qed.

Lemma seeked_effect (w : World) :
  hasContext w = true ->
  let w' := step w EvSeeked in
  exists v, video w = Some v /\
  hasContext w' = true /\
  clock w' = clock w /\
  timers w' = timers w /\
  deliveries w' =
    deliveries w ++ map (fun l => (snd l, clock w)) (seekedListeners v).
Proof.
  intros H w'. subst w'. unfold step.
  destruct (video w) as [v|] eqn:Hv.
  - exists v. split; [reflexivity|].
    match goal with
    | |- context [fold_left dispatchSeeked ?ls ?w0] =>
        destruct (fold_dispatchSeeked_effect ls w0) as (H1 & Ht & Hk & Hd)
    end.
    + unfold hasContext in *. cbn. now rewrite Hv in H.
    + rewrite Ht, Hk, Hd. auto.
  - unfold hasContext in H. now rewrite Hv in H.
Qed.

(** ** Scrubbing traces *)

Lemma scrub_step (w : World) (ev : Event) :
  sound w -> scrubbing ev = true ->
  sound (step w ev) /\
  clock (step w ev) = (clock w + elapsed [ev])%N /\
  exists news,
    extends w (step w ev) news /\
    (forall p, In p (pendingCaptures (timers w)) \/
               In p (scheduled (clock w) [ev]) ->
               In p news \/ In p (pendingCaptures (timers (step w ev)))) /\
    (List.length (pendingCaptures (timers w)) +
     List.length (scheduled (clock w) [ev]) <=
     List.length news + List.length (pendingCaptures (timers (step w ev))))%nat.
Proof.
  intros [Hctx Hdue] Hev. rewrite Forall_forall in Hdue.
  destruct ev as [| | | value | ms | |]; try discriminate.
  - (* seek completed *)
    destruct (seeked_effect w Hctx) as (v & Hv & H1 & Hk & Ht & Hd).
    unfold sound, extends. rewrite H1, Hk, Ht, Hd. cbn.
    rewrite N.add_0_r. split; [|split]; auto.
    + split; [reflexivity | now apply Forall_forall].
    + eexists. split; [reflexivity|]. split; [tauto | lia].
  - (* slider change *)
    destruct (handleSliderChange_effect w value Hctx) as (H1 & Hk & Hd & Ht).
    unfold sound, extends. rewrite H1, Hk, Ht, Hd. cbn [elapsed scheduled].
    rewrite N.add_0_r. split; [|split]; auto.
    + split; [reflexivity|]. apply Forall_forall. intros p Hp.
      apply In_pendingCaptures_enqueue in Hp. destruct Hp as [Hp|Hp].
      * cbn in Hp. destruct Hp as [<-|[]]. cbn. lia.
      * now apply Hdue.
    + exists []. split; [now rewrite app_nil_r|]. split.
      * intros p Hp. right. apply In_pendingCaptures_enqueue. cbn. tauto.
      * rewrite length_pendingCaptures_enqueue. cbn. lia.
  - (* time passes *)
    destruct (wait_effect w ms Hctx) as (H1 & Hk & Ht & Hd).
    unfold sound, extends. rewrite H1, Hk, Ht, Hd. cbn [elapsed scheduled].
    rewrite N.add_0_r. split; [|split]; auto.
    + split; [reflexivity|]. apply Forall_forall. intros p Hp.
      apply In_pendingCaptures in Hp. destruct Hp as (t & Hin & Hp).
      apply filter_In in Hin. destruct Hin as [Hin Hlate].
      assert (Hold : In p (pendingCaptures (timers w)))
        by (apply In_pendingCaptures; now exists t).
      apply Hdue in Hold. apply captureOf_due in Hp.
      unfold isDue in Hlate. rewrite negb_true_iff, N.leb_gt in Hlate. lia.
    + eexists. split; [reflexivity|]. split.
      * intros p [Hp|[]].
        now apply (In_pendingCaptures_filter (isDue (clock w + ms))).
      * rewrite <- (length_pendingCaptures_filter (isDue (clock w + ms))).
        cbn. lia.
Qed.

Lemma elapsed_app (a b : list Event) :
  elapsed (a ++ b) = (elapsed a + elapsed b)%N.
Proof.
  induction a as [|ev a IH]; cbn; [reflexivity|].
  destruct ev; rewrite ?IH; lia.
Qed.

(** Along a scrubbing trace no capture is lost: whatever was pending or
    was scheduled on the way has been delivered or is still pending. *)
Lemma scrub_run (evs : list Event) (w : World) :
  sound w -> forallb scrubbing evs = true ->
  sound (run w evs) /\
  clock (run w evs) = (clock w + elapsed evs)%N /\
  exists news,
    extends w (run w evs) news /\
    (forall p, In p (pendingCaptures (timers w)) \/
               In p (scheduled (clock w) evs) ->
               In p news \/ In p (pendingCaptures (timers (run w evs)))) /\
    (List.length (pendingCaptures (timers w)) +
     List.length (scheduled (clock w) evs) <=
     List.length news + List.length (pendingCaptures (timers (run w evs))))%nat.
Proof.
  revert w. induction evs as [|ev evs IH]; intros w Hs Hevs.
  - cbn. split; [exact Hs|]. split; [lia|]. exists [].
    unfold extends. rewrite app_nil_r. split; [reflexivity|].
    split; [tauto | lia].
  - cbn in Hevs. apply andb_true_iff in Hevs. destruct Hevs as [Hev Hevs].
    destruct (scrub_step w ev Hs Hev) as (Hs1 & Hk1 & n1 & He1 & Hin1 & Hlen1).
    destruct (IH _ Hs1 Hevs) as (Hs2 & Hk2 & n2 & He2 & Hin2 & Hlen2).
    change (run w (ev :: evs)) with (run (step w ev) evs).
    split; [exact Hs2|]. split.
    { rewrite Hk2, Hk1. cbn. destruct ev; lia. }
    exists (n1 ++ n2). unfold extends in *.
    assert (Hsched : forall p, In p (scheduled (clock w) (ev :: evs)) <->
              In p (scheduled (clock w) [ev]) \/
              In p (scheduled (clock (step w ev)) evs)).
    { rewrite Hk1. intros p. destruct ev; cbn; rewrite ?N.add_0_r;
        try tauto. }
    assert (Hschedlen : List.length (scheduled (clock w) (ev :: evs)) =
              (List.length (scheduled (clock w) [ev]) +
               List.length (scheduled (clock (step w ev)) evs))%nat).
    { rewrite Hk1. destruct ev; cbn; rewrite ?N.add_0_r; reflexivity. }
    split; [|split].
    + rewrite He2, He1, app_assoc. reflexivity.
    + intros p Hp. rewrite in_app_iff.
      assert (Hmid : In p n1 \/
                In p (pendingCaptures (timers (step w ev))) \/
                In p (scheduled (clock (step w ev)) evs)).
      { destruct Hp as [Hp|Hp].
        - destruct (Hin1 p (or_introl Hp)); tauto.
        - apply Hsched in Hp. destruct Hp as [Hp|Hp]; [|tauto].
          destruct (Hin1 p (or_intror Hp)); tauto. }
      destruct Hmid as [Hp1|Hp2]; [tauto|].
      destruct (Hin2 p Hp2); tauto.
    + rewrite length_app, Hschedlen. lia.
Qed.

Lemma run_app (w : World) (a b : list Event) :
  run w (a ++ b) = run (run w a) b.
Proof. unfold run. apply fold_left_app. Qed.

Lemma length_scheduled (now : N) (evs : list Event) :
  List.length (scheduled now evs) = requests evs.
Proof.
  revert now. unfold requests.
  induction evs as [|ev evs IH]; intros now; [reflexivity|].
  destruct ev; cbn; rewrite ?IH; reflexivity.
Qed.

Lemma In_scheduled (now : N) (evs : list Event) (value : Q) :
  In (EvSlider value) evs -> In value (map fst (scheduled now evs)).
Proof.
  revert now. induction evs as [|ev evs IH]; intros now; [intros []|].
  intros [->|H]; [now left|].
  destruct ev; cbn; try right; now apply IH.
Qed.

Lemma pendingCaptures_none_late (target : N) (ts : list Timer) :
  Forall (fun p => (snd p <= target)%N) (pendingCaptures ts) ->
  pendingCaptures (filter (fun t => negb (isDue target t)) ts) = [].
Proof.
  rewrite Forall_forall. intros H.
  destruct (pendingCaptures (filter _ ts)) as [|p l] eqn:E; [reflexivity|].
  assert (Hp : In p (pendingCaptures
                       (filter (fun t => negb (isDue target t)) ts)))
    by (rewrite E; now left).
  apply In_pendingCaptures in Hp. destruct Hp as (t & Hin & Hp).
  apply filter_In in Hin. destruct Hin as [Hin Hlate].
  assert (Hold : In p (pendingCaptures ts))
    by (apply In_pendingCaptures; now exists t).
  apply H in Hold. apply captureOf_due in Hp.
  unfold isDue in Hlate. rewrite negb_true_iff, N.leb_gt in Hlate. lia.
Qed.

(** A scheduled capture whose due time has been reached has been
    delivered. *)
Lemma scheduled_delivered (w : World) (evs : list Event) :
  sound w -> forallb scrubbing evs = true ->
  exists news,
    extends w (run w evs) news /\
    (forall p, In p (scheduled (clock w) evs) ->
               (snd p <= clock (run w evs))%N -> In p news).
Proof.
  intros Hs Hevs.
  destruct (scrub_run evs w Hs Hevs) as ([_ Hdue] & _ & news & He & Hin & _).
  exists news. split; [exact He|]. intros p Hp Hreached.
  destruct (Hin p (or_intror Hp)) as [H|H]; [exact H|].
  rewrite Forall_forall in Hdue. apply Hdue in H. lia.
Qed.

Lemma quiet_scrubbing (evs : list Event) :
  forallb quiet evs = true -> forallb scrubbing evs = true.
Proof.
  rewrite !forallb_forall. intros H ev Hev. apply H in Hev.
  destruct ev; try discriminate; reflexivity.
Qed.

(** ** Requests and deliveries (claims C1, C2, C3, C6) *)

(** C1, as stated, fails: two slider changes in a row, then 500 ms.  The
    specification promises one delivery (the request for 6 was
    superseded before it settled); the component delivers two, and the
    capture of the superseded request for 6 is one of them. *)
Lemma C1_superseded_capture_is_delivered :
  let evs := [EvSlider 6; EvSlider 7; EvWait 500] in
  promisedDeliveries evs = 1%nat /\
  List.length (calls (run readyWorld evs)) =
    (List.length (calls readyWorld) + 2)%nat /\
  timestamps (run readyWorld evs) = timestamps readyWorld ++ [6; 7].
Proof. cbv zeta. split; [|split]; vm_compute; reflexivity. Qed.

(** C1, amended: along every sequence of slider changes, interleaved in
    any way with seek completions and waiting, every request is
    delivered once its 500 ms have passed, superseded or not: the calls
    of [onFrameSelect] made since the start are at least as many as the
    requests, and the value of every request is among their
    timestamps. *)
Theorem C1_every_request_is_delivered (w : World) (evs : list Event) :
  sound w -> forallb scrubbing evs = true ->
  exists news,
    extends w (run w (evs ++ [EvWait 500])) news /\
    (requests evs <= List.length news)%nat /\
    (forall value, In (EvSlider value) evs -> In value (map fst news)).
Proof.
  intros Hs Hevs.
  assert (Hall : forallb scrubbing (evs ++ [EvWait 500]) = true)
    by (rewrite forallb_app, Hevs; reflexivity).
  destruct (scrub_run _ w Hs Hall) as ([_ Hdue] & Hk & news & He & Hin & Hlen).
  rewrite Forall_forall in Hdue.
  destruct (scrub_run _ w Hs Hevs) as ([Hctx1 Hdue1] & _).
  assert (Hempty : pendingCaptures (timers (run w (evs ++ [EvWait 500]))) = []).
  { rewrite run_app.
    change (run (run w evs) [EvWait 500]) with (step (run w evs) (EvWait 500)).
    destruct (wait_effect (run w evs) 500 Hctx1) as (_ & _ & Ht & _).
    rewrite Ht. apply pendingCaptures_none_late.
    eapply Forall_impl; [|exact Hdue1]. cbn. intros p Hp. lia. }
  rewrite Hempty in *. exists news. split; [exact He|]. split.
  - rewrite <- (length_scheduled (clock w)) at 1.
    assert (Hsub : (List.length (scheduled (clock w) evs) <=
                    List.length (scheduled (clock w) (evs ++ [EvWait 500])))%nat).
    { rewrite !length_scheduled. unfold requests.
      rewrite filter_app, length_app. lia. }
    cbn in Hlen. lia.
  - intros value Hv.
    assert (Hv' : In (EvSlider value) (evs ++ [EvWait 500]))
      by (apply in_or_app; now left).
    apply (In_scheduled (clock w)) in Hv'. apply in_map_iff in Hv'.
    destruct Hv' as (p & <- & Hp).
    destruct (Hin p (or_intror Hp)) as [H|[]]. now apply in_map.
Qed.

Lemma sound_readyWorld : sound readyWorld.
Proof. split; [vm_compute; reflexivity | vm_compute; constructor]. Qed.

Lemma C1_every_request_is_delivered_witness :
  exists news,
    extends readyWorld
      (run readyWorld ([EvSlider 6; EvSeeked; EvSlider 7] ++ [EvWait 500]))
      news /\
    (requests [EvSlider 6; EvSeeked; EvSlider 7] <= List.length news)%nat /\
    (forall value, In (EvSlider value) [EvSlider 6; EvSeeked; EvSlider 7] ->
                   In value (map fst news)).
Proof.
  apply (C1_every_request_is_delivered readyWorld
           [EvSlider 6; EvSeeked; EvSlider 7]).
  - exact sound_readyWorld.
  - reflexivity.
Defined.

(** C2: one slider change whose seek completes after 50 ms.  The
    ['seeked'] listener captures at once, and the fallback timer, which
    nothing cancels, captures again when its 500 ms are over: two capture
    attempts for one request.  In the other order the timer does
    deregister the listener, and there is one capture. *)
Theorem C2_seeked_then_fallback_captures_twice :
  deliveries (run readyWorld [EvSlider 5; EvWait 50; EvSeeked; EvWait 450]) =
    deliveries readyWorld ++ [(5, 200%N); (5, 650%N)] /\
  deliveries (run readyWorld [EvSlider 5; EvWait 500; EvSeeked]) =
    deliveries readyWorld ++ [(5, 650%N)].
Proof. split; vm_compute; reflexivity. Qed.

Lemma handleSliderChange_listeners (w : World) (value : Q) :
  hasContext w = true ->
  listeners (step w (EvSlider value)) = listeners w ++ [(nextId w, value)].
Proof.
  intros H. unfold hasContext in H. unfold listeners.
  destruct (video w) as [v|] eqn:Hv; [|discriminate].
  destruct (canvas w) as [c|] eqn:Hc; [|discriminate].
  unfold step, handleSliderChange. handler_unfold. cbn.
  repeat (progress (rewrite ?Hv, ?Hc; cbn)). reflexivity.
Qed.

Lemma seeked_deliveries (w : World) :
  hasContext w = true ->
  hasContext (step w EvSeeked) = true /\
  clock (step w EvSeeked) = clock w /\
  timers (step w EvSeeked) = timers w /\
  deliveries (step w EvSeeked) =
    deliveries w ++ map (fun l => (snd l, clock w)) (listeners w).
Proof.
  intros H. destruct (seeked_effect w H) as (v & Hv & H1 & Hk & Ht & Hd).
  unfold listeners. rewrite Hv. auto.
Qed.

(** C3, as stated, fails: the same request made twice in a row is
    delivered twice, not once. *)
Lemma C3_repeated_request_is_delivered_twice :
  deliveries (run readyWorld [EvSlider 5; EvSlider 5; EvWait 500]) =
    deliveries readyWorld ++ [(5, 650%N); (5, 650%N)] /\
  List.length (calls (run readyWorld [EvSlider 5; EvSlider 5; EvWait 500])) <>
    (List.length (calls readyWorld) + 1)%nat.
Proof. split; vm_compute; [reflexivity | discriminate]. Qed.

(** C3, amended: when no request is outstanding, calling the slider
    handler twice in a row with the same value delivers a capture for
    each of the two calls, neither is suppressed, and every delivery
    carries that value as its timestamp, whether or not the decoder
    signals the completed seek in between. *)
Theorem C3_repeated_request_delivers_each
    (w : World) (value : Q) (seekCompletes : bool) :
  idle w ->
  exists news,
    extends w
      (run w ([EvSlider value; EvSlider value] ++
              (if seekCompletes then [EvSeeked] else []) ++ [EvWait 500]))
      news /\
    (2 <= List.length news)%nat /\
    Forall (fun p => fst p = value) news.
Proof.
  intros (Hctx & Hpending & Hlisteners).
  destruct (handleSliderChange_effect w value Hctx) as (H1 & Hk1 & Hd1 & Ht1).
  pose proof (handleSliderChange_listeners w value Hctx) as Hl1.
  remember (step w (EvSlider value)) as w1 eqn:E1.
  destruct (handleSliderChange_effect w1 value H1) as (H2 & Hk2 & Hd2 & Ht2).
  pose proof (handleSliderChange_listeners w1 value H1) as Hl2.
  remember (step w1 (EvSlider value)) as w2 eqn:E2.
  rewrite Hl1, Hlisteners in Hl2. cbn [app] in Hl2.
  assert (Hp2 : forall p, In p (pendingCaptures (timers w2)) -> fst p = value).
  { intros p Hp. rewrite Ht2 in Hp.
    apply In_pendingCaptures_enqueue in Hp. destruct Hp as [Hp|Hp].
    - cbn in Hp. destruct Hp as [<-|[]]. reflexivity.
    - rewrite Ht1 in Hp. apply In_pendingCaptures_enqueue in Hp.
      destruct Hp as [Hp|Hp].
      + cbn in Hp. destruct Hp as [<-|[]]. reflexivity.
      + rewrite Hpending in Hp. destruct Hp. }
  assert (Hn2 : List.length (pendingCaptures (timers w2)) = 2%nat).
  { rewrite Ht2, length_pendingCaptures_enqueue, Ht1,
      length_pendingCaptures_enqueue, Hpending. reflexivity. }
  assert (Hdue2 : Forall (fun p => (snd p <= clock w2 + 500)%N)
                    (pendingCaptures (timers w2))).
  { apply Forall_forall. intros p Hp. rewrite Ht2 in Hp.
    apply In_pendingCaptures_enqueue in Hp. destruct Hp as [Hp|Hp].
    - cbn in Hp. destruct Hp as [<-|[]]. cbn [snd]. lia.
    - rewrite Ht1 in Hp. apply In_pendingCaptures_enqueue in Hp.
      destruct Hp as [Hp|Hp].
      + cbn in Hp. destruct Hp as [<-|[]]. cbn [snd]. lia.
      + rewrite Hpending in Hp. destruct Hp. }
  (* the final wait fires every pending capture of a store [w3] that has
     the timers and the clock of [w2] *)
  assert (Hfinal : forall w3 pre,
            hasContext w3 = true -> timers w3 = timers w2 ->
            clock w3 = clock w2 -> deliveries w3 = deliveries w ++ pre ->
            Forall (fun p => fst p = value) pre ->
            exists news,
              extends w (step w3 (EvWait 500)) news /\
              (2 <= List.length news)%nat /\
              Forall (fun p => fst p = value) news).
  { intros w3 pre H3 Ht3 Hk3 Hd3 Hpre.
    destruct (wait_effect w3 500 H3) as (_ & _ & _ & Hd).
    exists (pre ++ pendingCaptures (filter (isDue (clock w3 + 500)) (timers w3))).
    unfold extends. rewrite Hd, Hd3, <- app_assoc. split; [reflexivity|].
    rewrite Ht3, Hk3.
    pose proof (length_pendingCaptures_filter (isDue (clock w2 + 500))
                  (timers w2)) as Hsplit.
    rewrite (pendingCaptures_none_late _ _ Hdue2) in Hsplit. cbn in Hsplit.
    split.
    - rewrite length_app. lia.
    - apply Forall_app. split; [exact Hpre|].
      apply Forall_forall. intros p Hp. apply Hp2.
      apply (In_pendingCaptures_filter (isDue (clock w2 + 500))). now left. }
  destruct seekCompletes; cbn [app run fold_left]; rewrite <- E1, <- E2.
  - destruct (seeked_deliveries w2 H2) as (H3 & Hk3 & Ht3 & Hd3).
    apply (Hfinal (step w2 EvSeeked)
                  (map (fun l => (snd l, clock w2)) (listeners w2)));
      try assumption.
    + rewrite Hd3, Hd2, Hd1. reflexivity.
    + rewrite Hl2. repeat constructor.
  - apply (Hfinal w2 []); try assumption; try reflexivity.
    + rewrite Hd2, Hd1, app_nil_r. reflexivity.
    + constructor.
Qed.

Lemma idle_readyWorld : idle readyWorld.
Proof. split; [|split]; vm_compute; reflexivity. Qed.

Lemma C3_repeated_request_delivers_each_witness :
  exists news,
    extends readyWorld
      (run readyWorld ([EvSlider 5; EvSlider 5] ++ [EvSeeked] ++ [EvWait 500]))
      news /\
    (2 <= List.length news)%nat /\
    Forall (fun p => fst p = 5) news.
Proof.
  exact (C3_repeated_request_delivers_each readyWorld 5 true idle_readyWorld).
Defined.

(** C6: if, after a slider change, the decoder never signals the
    completed seek, then whatever slider changes and waiting follow,
    once 500 ms have passed the capture of that request has been
    delivered, by a call made exactly 500 ms after the request. *)
Theorem C6_fallback_delivers_after_500ms
    (w : World) (value : Q) (evs : list Event) :
  sound w -> forallb quiet evs = true -> (500 <= elapsed evs)%N ->
  exists news,
    extends w (run w (EvSlider value :: evs)) news /\
    In (value, (clock w + 500)%N) news.
Proof.
  intros Hs Hq Hlong.
  assert (Hall : forallb scrubbing (EvSlider value :: evs) = true)
    by (cbn; now apply quiet_scrubbing).
  destruct (scheduled_delivered w _ Hs Hall) as (news & He & Hin).
  destruct (scrub_run _ w Hs Hall) as (_ & Hk & _).
  exists news. split; [exact He|]. apply Hin.
  - now left.
  - rewrite Hk. cbn. lia.
Qed.

Lemma C6_fallback_delivers_after_500ms_witness :
  exists news,
    extends readyWorld
      (run readyWorld (EvSlider 5 :: [EvWait 200; EvSlider 8; EvWait 300]))
      news /\
    In (5, (clock readyWorld + 500)%N) news.
Proof.
  apply (C6_fallback_delivers_after_500ms readyWorld 5
           [EvWait 200; EvSlider 8; EvWait 300]).
  - exact sound_readyWorld.
  - reflexivity.
  - vm_compute. discriminate.
Defined.

(** ** The session time and its range (claims C4, C7) *)

Lemma clampQ_in_range (lo hi x : Q) :
  (lo <= x)%Q -> (x <= hi)%Q -> (clampQ lo hi x == x)%Q.
Proof.
  intros Hlo Hhi. unfold clampQ.
  destruct (Qle_bool x lo) eqn:E1.
  - apply Qle_bool_iff in E1. now apply Qle_antisym.
  - destruct (Qle_bool hi x) eqn:E2; [|reflexivity].
    apply Qle_bool_iff in E2. now apply Qle_antisym.
Qed.

(** The slider handler stores the parsed value and leaves the duration
    and what is rendered alone. *)
Lemma handleSliderChange_session (w : World) (value : Q) :
  currentTime (step w (EvSlider value)) = value /\
  duration (step w (EvSlider value)) = duration w /\
  status (step w (EvSlider value)) = status w.
Proof.
  unfold step, handleSliderChange, status. handler_unfold. cbn.
  destruct (video w) as [v|] eqn:Hv; [|cbn; auto].
  destruct (canvas w) as [c|] eqn:Hc; [|cbn; auto].
  repeat (progress (rewrite ?Hv, ?Hc; cbn)). auto.
Qed.

(** Neither a timer nor a ['seeked'] listener changes the session time
    or the duration. *)
Lemma runTimer_time (w : World) (t : Timer) :
  currentTime (runTimer w t) = currentTime w /\
  duration (runTimer w t) = duration w.
Proof.
  unfold runTimer, timerBody.
  destruct (body t) as [x | b | x h].
  - pose proof (captureFrame_leaves_session x (withClock (due t) w)) as F.
    cbv zeta in F. unfold exec in F. handler_unfold.
    destruct (captureFrame x (withClock (due t) w)); cbn in *; tauto.
  - destruct b; handler_unfold; cbn; tauto.
  - handler_unfold. cbn.
    destruct (video w) as [v|] eqn:Hv; cbn; [|tauto].
    match goal with
    | |- context [captureFrame x ?w0] =>
        pose proof (captureFrame_leaves_session x w0) as F;
        cbv zeta in F; unfold exec in F;
        destruct (captureFrame x w0); cbn in *; tauto
    end.
Qed.

Lemma fold_runTimer_time (ts : list Timer) (w : World) :
  currentTime (fold_left runTimer ts w) = currentTime w /\
  duration (fold_left runTimer ts w) = duration w.
Proof.
  revert w. induction ts as [|t ts IH]; intros w; cbn; [tauto|].
  destruct (IH (runTimer w t)) as [-> ->]. apply runTimer_time.
Qed.

Lemma dispatchSeeked_time (w : World) (l : nat * Q) :
  currentTime (dispatchSeeked w l) = currentTime w /\
  duration (dispatchSeeked w l) = duration w.
Proof.
  unfold dispatchSeeked, handleSeeked. handler_unfold. cbn.
  destruct (video w) as [v|] eqn:Hv; cbn; [|tauto].
  match goal with
  | |- context [captureFrame (snd l) ?w0] =>
      pose proof (captureFrame_leaves_session (snd l) w0) as F;
      cbv zeta in F; unfold exec in F;
      destruct (captureFrame (snd l) w0) as [[] w'|e w']; cbn in *
  end.
  - destruct F as (_ & _ & Hc & Hd & _ & _ & Hv' & _).
    rewrite Hv'. cbn. tauto.
  - tauto.
Qed.

Lemma fold_dispatchSeeked_time (ls : list (nat * Q)) (w : World) :
  currentTime (fold_left dispatchSeeked ls w) = currentTime w /\
  duration (fold_left dispatchSeeked ls w) = duration w.
Proof.
  revert w. induction ls as [|l ls IH]; intros w; cbn; [tauto|].
  destruct (IH (dispatchSeeked w l)) as [-> ->]. apply dispatchSeeked_time.
Qed.

Lemma scrub_step_time (w : World) (ev : Event) :
  scrubbing ev = true ->
  duration (step w ev) = duration w /\
  (forall value, ev = EvSlider value -> currentTime (step w ev) = value) /\
  ((forall value, ev <> EvSlider value) ->
   currentTime (step w ev) = currentTime w).
Proof.
  intros Hev. destruct ev as [| | | value | ms | |]; try discriminate.
  - (* seek completed *)
    assert (H : currentTime (step w EvSeeked) = currentTime w /\
                duration (step w EvSeeked) = duration w).
    { unfold step. destruct (video w) as [v|]; [|tauto].
      match goal with
      | |- context [fold_left dispatchSeeked ?ls ?w0] =>
          destruct (fold_dispatchSeeked_time ls w0) as [Hc Hd]
      end.
      cbn in *. tauto. }
    destruct H as [Hc Hd]. split; [exact Hd|]. split; [discriminate|].
    intros _. exact Hc.
  - (* slider change *)
    destruct (handleSliderChange_session w value) as (Hc & Hd & _).
    split; [exact Hd|]. split.
    + intros value' [= <-]. exact Hc.
    + intros Hne. now destruct (Hne value).
  - (* time passes *)
    assert (H : currentTime (step w (EvWait ms)) = currentTime w /\
                duration (step w (EvWait ms)) = duration w).
    { unfold step.
      match goal with
      | |- context [fold_left runTimer ?ts ?w0] =>
          destruct (fold_runTimer_time ts w0) as [Hc Hd]
      end.
      cbn in *. tauto. }
    destruct H as [Hc Hd]. split; [exact Hd|]. split; [discriminate|].
    intros _. exact Hc.
Qed.

(** C4, as stated, fails: the session time is not within
    [0, duration] in every ready state.  A 30-second clip mounted with
    [selectedTimestamp = -5] shows the scrubber with [currentTime = -5],
    below 0, and mounted with [selectedTimestamp = 45] it shows the
    scrubber with [currentTime = 45], above the duration. *)
Lemma C4_ready_with_time_out_of_range :
  status (run (mount goodFile (Some (-5)) neverThrows true)
              [EvWait 50; EvLoadedMetadata 30 640 480; EvWait 100]) = Ready /\
  duration (run (mount goodFile (Some (-5)) neverThrows true)
              [EvWait 50; EvLoadedMetadata 30 640 480; EvWait 100]) = 30 /\
  ~ (0 <= currentTime (run (mount goodFile (Some (-5)) neverThrows true)
              [EvWait 50; EvLoadedMetadata 30 640 480; EvWait 100]))%Q /\
  status (run (mount goodFile (Some 45) neverThrows true)
              [EvWait 50; EvLoadedMetadata 30 640 480; EvWait 100]) = Ready /\
  ~ (currentTime (run (mount goodFile (Some 45) neverThrows true)
              [EvWait 50; EvLoadedMetadata 30 640 480; EvWait 100]) <=
     duration (run (mount goodFile (Some 45) neverThrows true)
              [EvWait 50; EvLoadedMetadata 30 640 480; EvWait 100]))%Q.
Proof.
  split; [vm_compute; reflexivity|].
  split; [vm_compute; reflexivity|].
  split; [apply Qlt_not_le; vm_compute; reflexivity|].
  split; [vm_compute; reflexivity|].
  apply Qlt_not_le; vm_compute; reflexivity.
Qed.

(** C4, amended: for the values a range input with [min = 0] and
    [max = duration] delivers, the slider handler leaves the session
    time equal to the value brought into [0, duration], which is the
    value itself, and changes neither the duration nor what is
    rendered.  So from a store whose session time is within
    [0, duration], every sequence of such slider changes, seek
    completions and waiting leaves the session time within
    [0, duration]. *)
Theorem C4_requests_in_range_keep_time_in_range
    (w : World) (evs : list Event) :
  (0 <= currentTime w)%Q -> (currentTime w <= duration w)%Q ->
  forallb scrubbing evs = true ->
  (forall value, In (EvSlider value) evs ->
     (0 <= value)%Q /\ (value <= duration w)%Q) ->
  (0 <= currentTime (run w evs))%Q /\
  (currentTime (run w evs) <= duration (run w evs))%Q /\
  duration (run w evs) = duration w /\
  (forall value, In (EvSlider value) evs ->
     (currentTime (step w (EvSlider value)) ==
      clampQ 0 (duration w) value)%Q /\
     currentTime (step w (EvSlider value)) = value /\
     status (step w (EvSlider value)) = status w).
Proof.
  intros Hlo Hhi Hevs Hvalues. split; [|split; [|split]].
  4: { intros value Hin. destruct (Hvalues value Hin) as [H0 H1].
       destruct (handleSliderChange_session w value) as (Hc & _ & Hs).
       split; [|split; [exact Hc | exact Hs]].
       rewrite Hc. symmetry. now apply clampQ_in_range. }
  all: revert w Hlo Hhi Hevs Hvalues;
    induction evs as [|ev evs IH]; intros w Hlo Hhi Hevs Hvalues;
    [first [exact Hlo | exact Hhi | reflexivity]|];
    cbn in Hevs; apply andb_true_iff in Hevs; destruct Hevs as [Hev Hevs];
    change (run w (ev :: evs)) with (run (step w ev) evs);
    destruct (scrub_step_time w ev Hev) as (Hd & Hset & Hkeep);
    assert (Hlo' : (0 <= currentTime (step w ev))%Q)
      by (destruct ev as [| | | value | ms | |]; try discriminate;
          [rewrite Hkeep by discriminate; exact Hlo
          |rewrite (Hset value eq_refl);
           apply (Hvalues value); now left
          |rewrite Hkeep by discriminate; exact Hlo]);
    assert (Hhi' : (currentTime (step w ev) <= duration (step w ev))%Q)
      by (rewrite Hd; destruct ev as [| | | value | ms | |];
          try discriminate;
          [rewrite Hkeep by discriminate; exact Hhi
          |rewrite (Hset value eq_refl);
           apply (Hvalues value); now left
          |rewrite Hkeep by discriminate; exact Hhi]);
    assert (Hvalues' : forall value, In (EvSlider value) evs ->
              (0 <= value)%Q /\ (value <= duration (step w ev))%Q)
      by (intros value Hin; rewrite Hd; apply Hvalues; now right).
  - exact (IH _ Hlo' Hhi' Hevs Hvalues').
  - exact (IH _ Hlo' Hhi' Hevs Hvalues').
  - rewrite (IH _ Hlo' Hhi' Hevs Hvalues'). exact Hd.
Qed.

Lemma C4_requests_in_range_keep_time_in_range_witness :
  (0 <= currentTime (run readyWorld
                       [EvSlider 12; EvSeeked; EvSlider 30; EvWait 500;
                        EvSlider 0]))%Q /\
  (currentTime (run readyWorld
                  [EvSlider 12; EvSeeked; EvSlider 30; EvWait 500;
                   EvSlider 0]) <=
   duration (run readyWorld
               [EvSlider 12; EvSeeked; EvSlider 30; EvWait 500;
                EvSlider 0]))%Q /\
  duration (run readyWorld
              [EvSlider 12; EvSeeked; EvSlider 30; EvWait 500; EvSlider 0]) =
    duration readyWorld /\
  (forall value,
     In (EvSlider value)
        [EvSlider 12; EvSeeked; EvSlider 30; EvWait 500; EvSlider 0] ->
     (currentTime (step readyWorld (EvSlider value)) ==
      clampQ 0 (duration readyWorld) value)%Q /\
     currentTime (step readyWorld (EvSlider value)) = value /\
     status (step readyWorld (EvSlider value)) = status readyWorld).
Proof.
  apply (C4_requests_in_range_keep_time_in_range readyWorld
           [EvSlider 12; EvSeeked; EvSlider 30; EvWait 500; EvSlider 0]).
  - vm_compute. discriminate.
  - vm_compute. discriminate.
  - reflexivity.
  - intros value [[= <-]|[[=]|[[= <-]|[[=]|[[= <-]|[]]]]]];
      split; vm_compute; discriminate.
Defined.

(** C7, as stated, fails: with [selectedTimestamp = 999] on a 30-second
    clip the session time is 999 and the first capture is delivered with
    timestamp 999; neither is brought into [0, 30]. *)
Lemma C7_initial_timestamp_is_not_clamped :
  let w := run (mount goodFile (Some 999) neverThrows true)
               [EvWait 50; EvLoadedMetadata 30 640 480; EvWait 100] in
  status w = Ready /\
  duration w = 30 /\
  currentTime w = 999 /\
  deliveries w = [(999, 150%N)] /\
  ~ (currentTime w <= duration w)%Q.
Proof.
  cbv zeta.
  split; [vm_compute; reflexivity|].
  split; [vm_compute; reflexivity|].
  split; [vm_compute; reflexivity|].
  split; [vm_compute; reflexivity|].
  apply Qlt_not_le; vm_compute; reflexivity.
Qed.

Lemma mount_goodFile (selected : option Q) (throws : DataUrl -> Q -> bool) :
  mount goodFile selected throws true = mounted selected throws 0.
Proof. reflexivity. Qed.

Lemma mounted_wait selected throws (delay : N) :
  (delay < 10000)%N ->
  step (mounted selected throws 0) (EvWait delay) =
  mounted selected throws delay.
Proof.
  intros H.
  assert (E1 : (10000 <=? delay)%N = false) by (apply N.leb_gt; lia).
  unfold step, isDue, mounted. cbn -[N.leb]. rewrite E1. reflexivity.
Qed.

Lemma mounted_metadata selected throws (now : N) d vw vh :
  (now + 100 < 10000)%N ->
  step (mounted selected throws now) (EvLoadedMetadata d vw vh) =
  metadataLoaded selected throws now d vw vh.
Proof.
  intros H.
  assert (E2 : (now + 100 <? 10000)%N = true) by (apply N.ltb_lt; lia).
  unfold step, mounted, metadataLoaded, handleLoadedMetadata, initialTimeOf.
  handler_unfold. cbn -[N.add N.ltb clampQ]. rewrite E2. reflexivity.
Qed.

Lemma metadataLoaded_wait selected throws (now : N) d vw vh :
  (now + 100 < 10000)%N ->
  step (metadataLoaded selected throws now d vw vh) (EvWait 100) =
  firstCaptured selected throws now d vw vh.
Proof.
  intros H.
  assert (E3 : (now + 100 <=? now + 100)%N = true) by (apply N.leb_refl).
  assert (E4 : (10000 <=? now + 100)%N = false) by (apply N.leb_gt; lia).
  unfold step, isDue, metadataLoaded, firstCaptured.
  cbn -[N.add N.leb clampQ runTimer].
  rewrite E3, E4. cbn -[N.add N.leb clampQ runTimer].
  unfold runTimer. cbn [body timerBody due]. handler_unfold.
  erewrite captureFrame_with_context; [|reflexivity|reflexivity|reflexivity].
  unfold captured. cbn -[N.add clampQ].
  match goal with
  | |- context [throws ?frame ?t] => destruct (throws frame t)
  end; reflexivity.
Qed.

(** C7, amended: when the metadata of the file arrives, and its 100 ms
    capture delay ends before the 10-second load timeout, the session
    takes the initial timestamp as it is: 0 when the prop is absent, the
    prop's value unchanged when it is present.  That value becomes
    [currentTime], it is the timestamp of the first call of
    [onFrameSelect], made 100 ms after the metadata, and the scrubber is
    rendered.  Only the position of the media element itself is brought
    into the range of the media. *)
Theorem C7_metadata_starts_session
    (selected : option Q) (throws : DataUrl -> Q -> bool)
    (d : Q) (vw vh : Z) (delay : N) :
  (delay + 100 < 10000)%N ->
  status (run (mount goodFile selected throws true)
              [EvWait delay; EvLoadedMetadata d vw vh; EvWait 100]) = Ready /\
  duration (run (mount goodFile selected throws true)
              [EvWait delay; EvLoadedMetadata d vw vh; EvWait 100]) = d /\
  currentTime (run (mount goodFile selected throws true)
              [EvWait delay; EvLoadedMetadata d vw vh; EvWait 100]) =
    initialTimeOf selected /\
  deliveries (run (mount goodFile selected throws true)
              [EvWait delay; EvLoadedMetadata d vw vh; EvWait 100]) =
    [(initialTimeOf selected, (delay + 100)%N)] /\
  option_map videoCurrentTime
    (video (run (mount goodFile selected throws true)
              [EvWait delay; EvLoadedMetadata d vw vh; EvWait 100])) =
    Some (clampQ 0 d (initialTimeOf selected)).
Proof.
  intros Hd.
  assert (E : run (mount goodFile selected throws true)
                [EvWait delay; EvLoadedMetadata d vw vh; EvWait 100] =
              firstCaptured selected throws delay d vw vh).
  { unfold run. cbn [fold_left].
    rewrite mount_goodFile, mounted_wait, mounted_metadata,
      metadataLoaded_wait by lia.
    reflexivity. }
  rewrite E. unfold firstCaptured.
  (split; [|split; [|split; [|split]]]); reflexivity.
Qed.

Lemma C7_metadata_starts_session_witness :
  status (run (mount goodFile (Some 5) neverThrows true)
              [EvWait 50; EvLoadedMetadata 30 640 480; EvWait 100]) = Ready /\
  duration (run (mount goodFile (Some 5) neverThrows true)
              [EvWait 50; EvLoadedMetadata 30 640 480; EvWait 100]) = 30 /\
  currentTime (run (mount goodFile (Some 5) neverThrows true)
              [EvWait 50; EvLoadedMetadata 30 640 480; EvWait 100]) =
    initialTimeOf (Some 5) /\
  deliveries (run (mount goodFile (Some 5) neverThrows true)
              [EvWait 50; EvLoadedMetadata 30 640 480; EvWait 100]) =
    [(initialTimeOf (Some 5), (50 + 100)%N)] /\
  option_map videoCurrentTime
    (video (run (mount goodFile (Some 5) neverThrows true)
              [EvWait 50; EvLoadedMetadata 30 640 480; EvWait 100])) =
    Some (clampQ 0 30 (initialTimeOf (Some 5))).
Proof.
  apply (C7_metadata_starts_session (Some 5) neverThrows 30 640 480 50).
  vm_compute. reflexivity.
Defined.

(** ** Load failure (claim C5) *)

(** X13. The decoder rejects the file before the load timeout: the
    error box is rendered and nothing was delivered. *)
Lemma decoder_rejection_renders_error
    (selected : option Q) (throws : DataUrl -> Q -> bool) (delay : N) :
  (delay < 10000)%N ->
  status (run (mount goodFile selected throws true) [EvWait delay; EvError]) =
    Error "Failed to load video. Please try a different file." /\
  calls (run (mount goodFile selected throws true) [EvWait delay; EvError]) = [].
Proof.
  intros H. unfold run. cbn [fold_left].
  rewrite mount_goodFile, mounted_wait by exact H.
  split; reflexivity.
Qed.

(** X14. After mounting, ten seconds without any media event render the
    error box, and nothing was delivered. *)
Lemma load_timeout_after_mount
    (selected : option Q) (throws : DataUrl -> Q -> bool) :
  status (run (mount goodFile selected throws true) [EvWait 10000]) =
    Error "Video took too long to load. Please try again." /\
  calls (run (mount goodFile selected throws true) [EvWait 10000]) = [].
Proof. rewrite mount_goodFile. split; reflexivity. Qed.

(** C5: two files for which no metadata event fires within ten seconds.
    First, a file mounted at time 0 whose metadata arrives after 11
    seconds: the timeout has rendered the error box, but the
    ['loadedmetadata'] listener is still registered, so the first
    capture is made and [onFrameSelect] is called once while the error
    box stays.  Second, a file swapped in while the scrubber of the
    previous file is on screen, and whose decoder never answers: the
    timeout closure holds the [loading = false] of the render that ran
    the effect, does nothing, and the session stays in the loading
    state instead of reaching the error state. *)
Theorem C5_timeout_does_not_end_the_load :
  status (run (mount goodFile None neverThrows true) [EvWait 10000]) =
    Error "Video took too long to load. Please try again." /\
  status (run (mount goodFile None neverThrows true)
              [EvWait 10000; EvWait 1000; EvLoadedMetadata 30 640 480;
               EvWait 100]) =
    Error "Video took too long to load. Please try again." /\
  deliveries (run (mount goodFile None neverThrows true)
                [EvWait 10000; EvWait 1000; EvLoadedMetadata 30 640 480;
                 EvWait 100]) = [(0, 11100%N)] /\
  status readyWorld = Ready /\
  status (run readyWorld [EvProps goodFile None; EvWait 10000; EvWait 50000]) =
    Loading.
Proof.
  (split; [|split; [|split; [|split]]]); vm_compute; reflexivity.
Qed.

(** ** Capture failures (claims C8, C10) *)

(** C8: a capture that finds no rendering context writes one line to
    the console and changes nothing else: what is rendered stays, no
    call of [onFrameSelect] is made.  No capture ever ends by throwing,
    whatever the store and whatever the callback does, and neither
    does the slider handler.  And once the context is available again,
    the next capture is delivered. *)
Theorem C8_capture_failure_is_contained (w : World) (time time' : Q) :
  lostContext w = true ->
  captureFrame time w =
    Returned tt
      (withConsoleErrors
         (consoleErrors w ++ ["Failed to get canvas context"]) w) /\
  status (exec (captureFrame time) w) = status w /\
  calls (exec (captureFrame time) w) = calls w /\
  (forall w0 time0, returns (captureFrame time0 w0) = true) /\
  (forall w0 value, returns (handleSliderChange value w0) = true) /\
  deliveries
    (exec (captureFrame time')
       (step (exec (captureFrame time) w) (EvContext true))) =
    deliveries w ++ [(time', clock w)].
Proof.
  unfold lostContext. intros H.
  destruct (video w) as [v|] eqn:Hv; [|discriminate].
  destruct (canvas w) as [c|] eqn:Hc; [|discriminate].
  apply negb_true_iff in H.
  pose proof (captureFrame_without_context time w c Hc H) as E.
  split; [exact E|].
  unfold exec at 1 2 4. rewrite E. cbn [worldOf].
  split; [reflexivity|]. split; [reflexivity|].
  split; [intros; apply captureFrame_returns|].
  split; [intros; apply handleSliderChange_returns|].
  match goal with
  | |- deliveries (exec _ ?w2) = _ =>
      destruct (captureFrame_effect time' w2) as (w3 & E3 & _ & _ & _ & _ & Hd & _)
  end.
  - unfold step, hasContext. handler_unfold. cbn.
    repeat (progress (rewrite ?Hv, ?Hc; cbn)). reflexivity.
  - unfold exec. rewrite E3. cbn [worldOf]. rewrite Hd.
    unfold step. handler_unfold. cbn.
    repeat (progress (rewrite ?Hv, ?Hc; cbn)). reflexivity.
Qed.

Lemma C8_capture_failure_is_contained_witness :
  let w := run (mount goodFile None neverThrows false)
               [EvWait 50; EvLoadedMetadata 30 640 480] in
  captureFrame 0 w =
    Returned tt
      (withConsoleErrors
         (consoleErrors w ++ ["Failed to get canvas context"]) w) /\
  status (exec (captureFrame 0) w) = status w /\
  calls (exec (captureFrame 0) w) = calls w /\
  (forall w0 time0, returns (captureFrame time0 w0) = true) /\
  (forall w0 value, returns (handleSliderChange value w0) = true) /\
  deliveries
    (exec (captureFrame 7) (step (exec (captureFrame 0) w) (EvContext true))) =
    deliveries w ++ [(7, clock w)].
Proof.
  cbv zeta.
  apply (C8_capture_failure_is_contained
           (run (mount goodFile None neverThrows false)
                [EvWait 50; EvLoadedMetadata 30 640 480]) 0 7).
  vm_compute. reflexivity.
Defined.

(** C10: when the [onFrameSelect] callback throws during a capture, the
    capture still returns normally: the call was made, one line is
    written to the console, and what is rendered, [currentTime] and
    [duration] are as before.  The ['seeked'] handler and the fallback
    timer that made the capture return normally as well. *)
Theorem C10_throwing_callback_is_caught (w : World) (time : Q) (h : nat) :
  hasContext w = true ->
  (forall frame, onFrameSelectThrows w frame time = true) ->
  returns (captureFrame time w) = true /\
  status (exec (captureFrame time) w) = status w /\
  currentTime (exec (captureFrame time) w) = currentTime w /\
  duration (exec (captureFrame time) w) = duration w /\
  deliveries (exec (captureFrame time) w) = deliveries w ++ [(time, clock w)] /\
  consoleErrors (exec (captureFrame time) w) =
    consoleErrors w ++ ["Error capturing frame:"] /\
  returns (handleSeeked time h w) = true /\
  returns (timerBody (SeekFallback time h) w) = true.
Proof.
  unfold hasContext. intros H Hthrows.
  destruct (video w) as [v|] eqn:Hv; [|discriminate].
  destruct (canvas w) as [c|] eqn:Hc; [|discriminate].
  pose proof (captureFrame_with_context time w v c Hv Hc H) as E.
  split; [apply captureFrame_returns|].
  unfold exec. rewrite E. cbn [worldOf].
  unfold captured. rewrite Hthrows. unfold status, deliveries. cbn.
  rewrite map_app. cbn.
  split; [reflexivity|]. split; [reflexivity|]. split; [reflexivity|].
  split; [reflexivity|]. split; [reflexivity|]. split.
  - unfold handleSeeked. handler_unfold. rewrite E.
    unfold captured. rewrite Hthrows. cbn. rewrite Hv. reflexivity.
  - cbn [timerBody]. handler_unfold. rewrite Hv.
    match goal with
    | |- context [captureFrame time ?w0] =>
        pose proof (captureFrame_returns time w0) as R;
        destruct (captureFrame time w0); [reflexivity | discriminate R]
    end.
Qed.

Lemma C10_throwing_callback_is_caught_witness :
  let w := run (mount goodFile None alwaysThrows true)
               [EvWait 50; EvLoadedMetadata 30 640 480] in
  returns (captureFrame 5 w) = true /\
  status (exec (captureFrame 5) w) = status w /\
  currentTime (exec (captureFrame 5) w) = currentTime w /\
  duration (exec (captureFrame 5) w) = duration w /\
  deliveries (exec (captureFrame 5) w) = deliveries w ++ [(5, clock w)] /\
  consoleErrors (exec (captureFrame 5) w) =
    consoleErrors w ++ ["Error capturing frame:"] /\
  returns (handleSeeked 5 2 w) = true /\
  returns (timerBody (SeekFallback 5 2) w) = true.
Proof.
  cbv zeta.
  apply (C10_throwing_callback_is_caught
           (run (mount goodFile None alwaysThrows true)
                [EvWait 50; EvLoadedMetadata 30 640 480]) 5 2).
  - vm_compute. reflexivity.
  - intros frame. vm_compute. reflexivity.
Defined.

(** ** The capture surface (claim C9) *)

(** C9, as stated, fails: the canvas that the first capture sized to
    640x480 is sized again, to 1280x720, by the first capture of the
    next file. *)
Lemma C9_surface_is_resized_again :
  List.length (calls readyWorld) = 1%nat /\
  option_map canvasSize (canvas readyWorld) = Some (640, 480)%Z /\
  List.length (calls (run readyWorld
                 [EvProps goodFile None; EvLoadedMetadata 12 1280 720;
                  EvWait 100])) = 2%nat /\
  option_map canvasSize
    (canvas (run readyWorld
               [EvProps goodFile None; EvLoadedMetadata 12 1280 720;
                EvWait 100])) = Some (1280, 720)%Z.
Proof.
  (split; [|split; [|split]]); vm_compute; reflexivity.
Qed.

(** C9, amended: every capture that obtains a context assigns the
    canvas the raster size the video element reports at that moment, on
    the first capture and on every later one. *)
Theorem C9_every_capture_sizes_the_surface (w : World) (time : Q) :
  hasContext w = true ->
  option_map canvasSize (canvas (exec (captureFrame time) w)) =
  option_map videoSize (video w).
Proof.
  unfold hasContext. intros H.
  destruct (video w) as [v|] eqn:Hv; [|discriminate].
  destruct (canvas w) as [c|] eqn:Hc; [|discriminate].
  unfold exec. rewrite (captureFrame_with_context time w v c Hv Hc H).
  cbn [worldOf]. unfold captured.
  destruct (onFrameSelectThrows w _ time); reflexivity.
Qed.

Lemma C9_every_capture_sizes_the_surface_witness :
  option_map canvasSize (canvas (exec (captureFrame 5) readyWorld)) =
  option_map videoSize (video readyWorld).
Proof.
  apply (C9_every_capture_sizes_the_surface readyWorld 5).
  vm_compute. reflexivity.
Defined.

(** * Further properties of the code *)

(** ** The order of the timer queue *)

Lemma enqueue_inFiringOrder (t : Timer) (q : list Timer) :
  inFiringOrder q -> inFiringOrder (enqueue t q).
Proof.
  induction q as [|x q IH]; cbn.
  - intros _. split; [constructor | exact I].
  - intros [Hx Hq]. destruct (due t <? due x)%N eqn:E.
    + apply N.ltb_lt in E. cbn. split; [|split; assumption].
      constructor; [lia|]. eapply Forall_impl; [|exact Hx].
      cbn. intros y Hy. lia.
    + apply N.ltb_ge in E. cbn. split; [|now apply IH].
      apply Forall_forall. intros y Hy. apply In_enqueue in Hy.
      destruct Hy as [->|Hy]; [exact E|].
      rewrite Forall_forall in Hx. now apply Hx.
Qed.

Lemma filter_inFiringOrder (f : Timer -> bool) (ts : list Timer) :
  inFiringOrder ts -> inFiringOrder (filter f ts).
Proof.
  induction ts as [|t ts IH]; cbn; [tauto|].
  intros [Ht Hts]. destruct (f t); cbn; [|now apply IH].
  split; [|now apply IH].
  apply Forall_forall. intros y Hy. apply filter_In in Hy.
  rewrite Forall_forall in Ht. now apply Ht.
Qed.

(** In a queue in firing order the timers that are due form a prefix. *)
Lemma due_timers_first (target : N) (ts : list Timer) :
  inFiringOrder ts ->
  ts = filter (isDue target) ts ++
       filter (fun t => negb (isDue target t)) ts.
Proof.
  induction ts as [|t ts IH]; cbn; [reflexivity|].
  intros [Ht Hts]. destruct (isDue target t) eqn:E; cbn.
  - f_equal. now apply IH.
  - assert (Hnone : filter (isDue target) ts = []).
    { destruct (filter (isDue target) ts) as [|y l] eqn:Ey; [reflexivity|].
      assert (Hy : In y (filter (isDue target) ts)) by (rewrite Ey; now left).
      apply filter_In in Hy. destruct Hy as [Hy Hdue].
      rewrite Forall_forall in Ht. apply Ht in Hy.
      unfold isDue in *. apply N.leb_gt in E. apply N.leb_le in Hdue. lia. }
    assert (Hall : filter (fun t => negb (isDue target t)) ts = ts).
    { rewrite (IH Hts) at 2. rewrite Hnone. reflexivity. }
    rewrite Hnone, Hall. reflexivity.
Qed.

(** A timer that is due no earlier than every pending capture is
    queued behind all of them. *)
Lemma pendingCaptures_enqueue_last (t : Timer) (q : list Timer) :
  inFiringOrder q ->
  Forall (fun p => (snd p <= due t)%N) (pendingCaptures q) ->
  pendingCaptures (enqueue t q) = pendingCaptures q ++ captureOf t.
Proof.
  induction q as [|x q IH]; cbn.
  - intros _ _. now rewrite app_nil_r.
  - intros [Hx Hq] Hdue. fold (pendingCaptures q) in *.
    apply Forall_app in Hdue. destruct Hdue as [Hdx Hdq].
    destruct (due t <? due x)%N eqn:E.
    + apply N.ltb_lt in E. cbn. fold (pendingCaptures q).
      assert (Hx0 : captureOf x = []).
      { destruct (captureOf x) as [|p l] eqn:Ex; [reflexivity|].
        assert (Hp : In p (captureOf x)) by (rewrite Ex; now left).
        apply captureOf_due in Hp. inversion Hdx; subst. lia. }
      assert (Hq0 : pendingCaptures q = []).
      { destruct (pendingCaptures q) as [|p l] eqn:Eq; [reflexivity|].
        assert (Hp : In p (pendingCaptures q)) by (rewrite Eq; now left).
        apply In_pendingCaptures in Hp. destruct Hp as (y & Hy & Hp).
        apply captureOf_due in Hp. rewrite Forall_forall in Hx.
        apply Hx in Hy. inversion Hdq; subst. lia. }
      rewrite Hx0, Hq0. cbn. now rewrite app_nil_r.
    + cbn. fold (pendingCaptures (enqueue t q)).
      rewrite (IH Hq Hdq), app_assoc. reflexivity.
Qed.

Lemma pendingCaptures_app (a b : list Timer) :
  pendingCaptures (a ++ b) = pendingCaptures a ++ pendingCaptures b.
Proof. unfold pendingCaptures. apply flat_map_app. Qed.

(** Once 500 ms have passed, no capture is pending any more. *)
Lemma none_pending_after_500 (w : World) :
  sound w -> pendingCaptures (timers (step w (EvWait 500))) = [].
Proof.
  intros [Hctx Hdue].
  destruct (wait_effect w 500 Hctx) as (_ & _ & Ht & _).
  rewrite Ht. apply pendingCaptures_none_late.
  eapply Forall_impl; [|exact Hdue]. cbn. intros p Hp. lia.
Qed.

Lemma scheduled_app (now : N) (a b : list Event) :
  scheduled now (a ++ b) = scheduled now a ++ scheduled (now + elapsed a) b.
Proof.
  revert now. induction a as [|ev a IH]; intros now; cbn.
  - now rewrite N.add_0_r.
  - destruct ev; cbn; rewrite ?IH; try reflexivity.
    now rewrite N.add_assoc.
Qed.

(** ** Scrubbing without seek completions *)

Lemma quiet_step (w : World) (ev : Event) :
  orderly w -> quiet ev = true ->
  orderly (step w ev) /\
  ledger (step w ev) = ledger w ++ scheduled (clock w) [ev].
Proof.
  intros [Hs Ho] Hev.
  assert (Hscrub : scrubbing ev = true)
    by (destruct ev; try discriminate; reflexivity).
  destruct (scrub_step w ev Hs Hscrub) as (Hs' & _).
  destruct Hs as [Hctx Hdue]. unfold orderly, ledger.
  destruct ev as [| | | value | ms | |]; try discriminate.
  - destruct (handleSliderChange_effect w value Hctx) as (_ & _ & Hd & Ht).
    rewrite Ht, Hd. split; [split; [exact Hs'|]|].
    + now apply enqueue_inFiringOrder.
    + rewrite pendingCaptures_enqueue_last.
      * cbn. now rewrite app_assoc.
      * exact Ho.
      * eapply Forall_impl; [|exact Hdue]. cbn. intros p Hp. lia.
  - destruct (wait_effect w ms Hctx) as (_ & _ & Ht & Hd).
    rewrite Ht, Hd. split; [split; [exact Hs'|]|].
    + now apply filter_inFiringOrder.
    + cbn [scheduled]. rewrite app_nil_r, <- app_assoc, <- pendingCaptures_app,
        <- (due_timers_first (clock w + ms) (timers w) Ho).
      reflexivity.
Qed.

Lemma quiet_run (evs : list Event) (w : World) :
  orderly w -> forallb quiet evs = true ->
  orderly (run w evs) /\
  ledger (run w evs) = ledger w ++ scheduled (clock w) evs.
Proof.
  revert w. induction evs as [|ev evs IH]; intros w Ho Hevs.
  - cbn. split; [exact Ho | now rewrite app_nil_r].
  - cbn in Hevs. apply andb_true_iff in Hevs. destruct Hevs as [Hev Hevs].
    destruct (quiet_step w ev Ho Hev) as (Ho1 & Hl1).
    destruct (IH _ Ho1 Hevs) as (Ho2 & Hl2).
    assert (Hscrub : scrubbing ev = true)
      by (destruct ev; try discriminate; reflexivity).
    destruct (scrub_step w ev (proj1 Ho) Hscrub) as (_ & Hk & _).
    change (run w (ev :: evs)) with (run (step w ev) evs).
    split; [exact Ho2|].
    rewrite Hl2, Hl1, Hk, <- app_assoc.
    change (ev :: evs) with ([ev] ++ evs). now rewrite scheduled_app.
Qed.

(** X1. When the decoder never signals a completed seek, the calls of
    [onFrameSelect] are exactly the fallback captures: 500 ms after the
    last slider change, what has been delivered since the start is what
    was pending at the start followed by one call per slider change, in
    the order of the slider changes, each made 500 ms after its
    request. *)
Theorem quiet_scrubbing_delivers_requests_in_order
    (w : World) (evs : list Event) :
  orderly w -> forallb quiet evs = true ->
  deliveries (run w (evs ++ [EvWait 500])) =
  deliveries w ++ pendingCaptures (timers w) ++ scheduled (clock w) evs.
Proof.
  intros Ho Hevs.
  assert (Hall : forallb quiet (evs ++ [EvWait 500]) = true)
    by (rewrite forallb_app, Hevs; reflexivity).
  destruct (quiet_run _ w Ho Hall) as (_ & Hl).
  destruct (quiet_run _ w Ho Hevs) as ([Hs1 _] & _).
  unfold ledger in Hl. rewrite run_app in Hl.
  change (run (run w evs) [EvWait 500])
    with (step (run w evs) (EvWait 500)) in Hl.
  rewrite (none_pending_after_500 _ Hs1), app_nil_r in Hl.
  rewrite run_app.
  change (run (run w evs) [EvWait 500]) with (step (run w evs) (EvWait 500)).
  rewrite Hl, scheduled_app. cbn [scheduled]. now rewrite app_nil_r, app_assoc.
Qed.

Lemma orderly_readyWorld : orderly readyWorld.
Proof.
  split; [exact sound_readyWorld|].
  vm_compute. split; [constructor | exact I].
Qed.

Lemma quiet_scrubbing_delivers_requests_in_order_witness :
  deliveries (run readyWorld
                ([EvSlider 6; EvWait 200; EvSlider 7; EvSlider 3] ++
                 [EvWait 500])) =
  deliveries readyWorld ++ pendingCaptures (timers readyWorld) ++
  scheduled (clock readyWorld) [EvSlider 6; EvWait 200; EvSlider 7; EvSlider 3].
Proof.
  apply (quiet_scrubbing_delivers_requests_in_order readyWorld
           [EvSlider 6; EvWait 200; EvSlider 7; EvSlider 3]).
  - exact orderly_readyWorld.
  - reflexivity.
Defined.

(** ** Listeners only go away *)

Lemma runTimer_listeners (w : World) (t : Timer) :
  hasContext w = true ->
  exists f, listeners (runTimer w t) = filter f (listeners w).
Proof.
  intros H. unfold runTimer, timerBody.
  destruct (body t) as [x | b | x h].
  - destruct (captureFrame_effect x (withClock (due t) w) H)
      as (w' & E & _ & Hv & _).
    exists (fun _ => true). handler_unfold. rewrite E.
    unfold listeners in *. cbn in *. rewrite Hv.
    destruct (video w) as [v|]; cbn; [|reflexivity].
    symmetry. apply forallb_filter_id. apply forallb_forall. reflexivity.
  - exists (fun _ => true). unfold listeners.
    destruct b; handler_unfold; cbn;
      (destruct (video w) as [v|]; cbn; [|reflexivity]);
      symmetry; apply forallb_filter_id; apply forallb_forall; reflexivity.
  - unfold hasContext in H.
    destruct (video w) as [v|] eqn:Hv; [|discriminate].
    destruct (canvas w) as [c|] eqn:Hc; [|discriminate].
    exists (fun l => negb (Nat.eqb (fst l) h)).
    handler_unfold. cbn. rewrite Hv.
    match goal with
    | |- context [captureFrame x ?w0] =>
        destruct (captureFrame_effect x w0) as (w' & E & _ & Hv' & _);
        [unfold hasContext; cbn; rewrite Hc; exact H|]
    end.
    rewrite E. unfold listeners. rewrite Hv'. cbn. rewrite Hv. reflexivity.
Qed.

Lemma fold_runTimer_listeners (ts : list Timer) (w : World) :
  hasContext w = true ->
  exists f, listeners (fold_left runTimer ts w) = filter f (listeners w).
Proof.
  revert w. induction ts as [|t ts IH]; intros w H; cbn.
  - exists (fun _ => true). symmetry. apply forallb_filter_id.
    apply forallb_forall. reflexivity.
  - destruct (runTimer_effect w t H) as (H1 & _).
    destruct (runTimer_listeners w t H) as (f & Hf).
    destruct (IH _ H1) as (g & Hg).
    exists (fun x => f x && g x). rewrite Hg, Hf.
    clear. induction (listeners w) as [|x l IHl]; cbn; [reflexivity|].
    destruct (f x); cbn; [destruct (g x); cbn; now rewrite IHl | exact IHl].
Qed.

Lemma wait_listeners (w : World) (ms : N) :
  hasContext w = true ->
  exists f, listeners (step w (EvWait ms)) = filter f (listeners w).
Proof.
  intros H. unfold step.
  match goal with
  | |- context [fold_left runTimer ?ts ?w0] =>
      destruct (fold_runTimer_listeners ts w0) as (f & Hf); [exact H|]
  end.
  exists f. unfold listeners in *. cbn in *. exact Hf.
Qed.

Lemma dispatchSeeked_listeners (w : World) (l x : nat * Q) :
  hasContext w = true ->
  In x (listeners (dispatchSeeked w l)) ->
  In x (listeners w) /\ fst x <> fst l.
Proof.
  intros H. unfold hasContext in H.
  destruct (video w) as [v|] eqn:Hv; [|discriminate].
  destruct (canvas w) as [c|] eqn:Hc; [|discriminate].
  unfold dispatchSeeked, handleSeeked. handler_unfold. cbn. rewrite Hv.
  match goal with
  | |- context [captureFrame (snd l) ?w0] =>
      destruct (captureFrame_effect (snd l) w0) as (w' & E & _ & Hv' & _);
      [unfold hasContext; cbn; rewrite Hc; exact H|]
  end.
  rewrite E. cbn in Hv'. rewrite Hv'. unfold listeners. cbn. rewrite Hv.
  intros Hx. apply filter_In in Hx. destruct Hx as [Hx _].
  apply filter_In in Hx. destruct Hx as [Hx Hne]. split; [exact Hx|].
  apply negb_true_iff, Nat.eqb_neq in Hne. exact Hne.
Qed.

(** Dispatching ['seeked'] to every registered listener leaves none
    registered. *)
Lemma fold_dispatchSeeked_listeners (ls : list (nat * Q)) (w : World) :
  hasContext w = true ->
  (forall x, In x (listeners w) -> In (fst x) (map fst ls)) ->
  listeners (fold_left dispatchSeeked ls w) = [].
Proof.
  revert w. induction ls as [|l ls IH]; intros w H Hin; cbn.
  - destruct (listeners w) as [|x r]; [reflexivity|].
    destruct (Hin x (or_introl eq_refl)).
  - destruct (dispatchSeeked_effect w l H) as (H1 & _).
    apply IH; [exact H1|]. intros x Hx.
    apply (dispatchSeeked_listeners w l x H) in Hx. destruct Hx as [Hx Hne].
    apply Hin in Hx. cbn in Hx. destruct Hx as [Hx|Hx]; [congruence | exact Hx].
Qed.

Lemma seeked_listeners (w : World) :
  hasContext w = true -> listeners (step w EvSeeked) = [].
Proof.
  intros H. unfold step. unfold hasContext in H.
  destruct (video w) as [v|] eqn:Hv; [|discriminate].
  apply fold_dispatchSeeked_listeners.
  - unfold hasContext. cbn. exact H.
  - unfold listeners. cbn. intros x Hx. now apply in_map.
Qed.

(** ** At most two captures per request *)

Section Bound.

(** The timestamps that may be delivered. *)
Variable allowed : Q -> Prop.

Lemma scrub_step_bound (w : World) (ev : Event) :
  hasContext w = true -> scrubbing ev = true ->
  withinAllowed allowed w ->
  (forall value, ev = EvSlider value -> allowed value) ->
  exists news,
    extends w (step w ev) news /\
    hasContext (step w ev) = true /\
    withinAllowed allowed (step w ev) /\
    (forall p, In p news -> allowed (fst p)) /\
    (List.length news +
     List.length (pendingCaptures (timers (step w ev))) +
     List.length (listeners (step w ev)) <=
     List.length (pendingCaptures (timers w)) +
     List.length (listeners w) + 2 * requests [ev])%nat.
Proof.
  intros Hctx Hev [Hp Hl] Hval. unfold withinAllowed, extends.
  destruct ev as [| | | value | ms | |]; try discriminate.
  - (* seek completed *)
    destruct (seeked_deliveries w Hctx) as (H1 & _ & Ht & Hd).
    exists (map (fun l => (snd l, clock w)) (listeners w)).
    rewrite Ht, (seeked_listeners w Hctx).
    split; [exact Hd|]. split; [exact H1|]. split; [|split].
    + split; [exact Hp | intros l []].
    + intros p Hin. apply in_map_iff in Hin.
      destruct Hin as (l & <- & Hin). cbn. now apply Hl.
    + rewrite length_map. cbn. lia.
  - (* slider change *)
    destruct (handleSliderChange_effect w value Hctx) as (H1 & _ & Hd & Ht).
    exists []. rewrite Ht, (handleSliderChange_listeners w value Hctx).
    split; [now rewrite app_nil_r|]. split; [exact H1|].
    split; [|split].
    + split.
      * intros p Hin. apply In_pendingCaptures_enqueue in Hin.
        destruct Hin as [Hin|Hin]; [|now apply Hp].
        cbn in Hin. destruct Hin as [<-|[]]. cbn. now apply Hval.
      * intros l Hin. apply in_app_or in Hin.
        destruct Hin as [Hin|[<-|[]]]; [now apply Hl|]. cbn. now apply Hval.
    + intros p [].
    + rewrite length_pendingCaptures_enqueue, length_app. cbn. lia.
  - (* time passes *)
    destruct (wait_effect w ms Hctx) as (H1 & _ & Ht & Hd).
    destruct (wait_listeners w ms Hctx) as (f & Hf).
    exists (pendingCaptures (filter (isDue (clock w + ms)) (timers w))).
    rewrite Ht, Hf.
    split; [exact Hd|]. split; [exact H1|]. split; [|split].
    + split.
      * intros p Hin. apply Hp.
        apply (In_pendingCaptures_filter (isDue (clock w + ms))). now right.
      * intros l Hin. apply filter_In in Hin. now apply Hl.
    + intros p Hin. apply Hp.
      apply (In_pendingCaptures_filter (isDue (clock w + ms))). now left.
    + rewrite (length_pendingCaptures_filter (isDue (clock w + ms))).
      pose proof (filter_length_le f (listeners w)). cbn. lia.
Qed.

Lemma scrub_run_bound (evs : list Event) (w : World) :
  hasContext w = true -> forallb scrubbing evs = true ->
  withinAllowed allowed w ->
  (forall value, In (EvSlider value) evs -> allowed value) ->
  exists news,
    extends w (run w evs) news /\
    (forall p, In p news -> allowed (fst p)) /\
    (List.length news <=
     List.length (pendingCaptures (timers w)) +
     List.length (listeners w) + 2 * requests evs)%nat.
Proof.
  revert w. induction evs as [|ev evs IH]; intros w Hctx Hevs Hw Hval.
  - exists []. unfold extends. cbn. rewrite app_nil_r.
    split; [reflexivity|]. split; [intros p []| lia].
  - cbn in Hevs. apply andb_true_iff in Hevs. destruct Hevs as [Hev Hevs].
    destruct (scrub_step_bound w ev Hctx Hev Hw)
      as (n1 & He1 & Hc1 & Hw1 & Ha1 & Hlen1).
    { intros value ->. apply Hval. now left. }
    destruct (IH _ Hc1 Hevs Hw1) as (n2 & He2 & Ha2 & Hlen2).
    { intros value Hin. apply Hval. now right. }
    exists (n1 ++ n2). unfold extends in *.
    change (run w (ev :: evs)) with (run (step w ev) evs).
    split; [now rewrite He2, He1, app_assoc|]. split.
    + intros p Hin. apply in_app_or in Hin. destruct Hin; auto.
    + rewrite length_app.
      assert (Hreq : requests (ev :: evs) =
                     (requests [ev] + requests evs)%nat).
      { unfold requests. cbn. destruct (isRequest ev); reflexivity. }
      rewrite Hreq. lia.
Qed.

End Bound.

(** X2. Starting with no request outstanding, whatever the interleaving
    of slider changes, seek completions and waiting, [onFrameSelect] is
    called at most twice per slider change, and only ever with a
    timestamp that some slider change of the trace asked for. *)
Theorem at_most_two_deliveries_per_request (w : World) (evs : list Event) :
  idle w -> forallb scrubbing evs = true ->
  exists news,
    extends w (run w evs) news /\
    (List.length news <= 2 * requests evs)%nat /\
    (forall p, In p news -> In (EvSlider (fst p)) evs).
Proof.
  intros (Hctx & Hpending & Hlisteners) Hevs.
  destruct (scrub_run_bound (fun value => In (EvSlider value) evs) evs w
              Hctx Hevs) as (news & He & Ha & Hlen).
  - unfold withinAllowed. rewrite Hpending, Hlisteners.
    split; intros x [].
  - auto.
  - exists news. rewrite Hpending, Hlisteners in Hlen. cbn in Hlen.
    split; [exact He|]. split; [lia | exact Ha].
Qed.

Lemma at_most_two_deliveries_per_request_witness :
  exists news,
    extends readyWorld
      (run readyWorld [EvSlider 6; EvSeeked; EvSlider 7; EvWait 500; EvSeeked])
      news /\
    (List.length news <=
     2 * requests [EvSlider 6; EvSeeked; EvSlider 7; EvWait 500; EvSeeked])%nat /\
    (forall p, In p news ->
       In (EvSlider (fst p))
          [EvSlider 6; EvSeeked; EvSlider 7; EvWait 500; EvSeeked]).
Proof.
  apply (at_most_two_deliveries_per_request readyWorld
           [EvSlider 6; EvSeeked; EvSlider 7; EvWait 500; EvSeeked]).
  - exact idle_readyWorld.
  - reflexivity.
Defined.


(** ** The shape of the store after each event *)

Lemma runTimer_ids (w : World) (t : Timer) :
  nextId (runTimer w t) = nextId w /\
  fileEffect (runTimer w t) = fileEffect w.
Proof.
  unfold runTimer, timerBody.
  destruct (body t) as [x | b | x h].
  - pose proof (captureFrame_leaves_session x (withClock (due t) w)) as F.
    cbv zeta in F. unfold exec in F. handler_unfold.
    destruct (captureFrame x (withClock (due t) w)); cbn in *; tauto.
  - destruct b; handler_unfold; cbn; tauto.
  - handler_unfold. cbn.
    destruct (video w) as [v|] eqn:Hv; cbn; [|tauto].
    match goal with
    | |- context [captureFrame x ?w0] =>
        pose proof (captureFrame_leaves_session x w0) as F;
        cbv zeta in F; unfold exec in F;
        destruct (captureFrame x w0); cbn in *; tauto
    end.
Qed.

Lemma fold_runTimer_ids (ts : list Timer) (w : World) :
  nextId (fold_left runTimer ts w) = nextId w /\
  fileEffect (fold_left runTimer ts w) = fileEffect w.
Proof.
  revert w. induction ts as [|t ts IH]; intros w; cbn; [tauto|].
  destruct (IH (runTimer w t)) as [-> ->]. apply runTimer_ids.
Qed.

Lemma dispatchSeeked_ids (w : World) (l : nat * Q) :
  nextId (dispatchSeeked w l) = nextId w /\
  fileEffect (dispatchSeeked w l) = fileEffect w.
Proof.
  unfold dispatchSeeked, handleSeeked. handler_unfold. cbn.
  destruct (video w) as [v|] eqn:Hv; cbn; [|tauto].
  match goal with
  | |- context [captureFrame (snd l) ?w0] =>
      pose proof (captureFrame_leaves_session (snd l) w0) as F;
      cbv zeta in F; unfold exec in F;
      destruct (captureFrame (snd l) w0) as [[] w'|e w']; cbn in *
  end.
  - destruct F as (_ & _ & _ & _ & _ & _ & Hv' & Hn & Hf & _).
    rewrite Hv'. cbn. tauto.
  - tauto.
Qed.

Lemma fold_dispatchSeeked_ids (ls : list (nat * Q)) (w : World) :
  nextId (fold_left dispatchSeeked ls w) = nextId w /\
  fileEffect (fold_left dispatchSeeked ls w) = fileEffect w.
Proof.
  revert w. induction ls as [|l ls IH]; intros w; cbn; [tauto|].
  destruct (IH (dispatchSeeked w l)) as [-> ->]. apply dispatchSeeked_ids.
Qed.

Lemma wait_ids (w : World) (ms : N) :
  nextId (step w (EvWait ms)) = nextId w /\
  fileEffect (step w (EvWait ms)) = fileEffect w.
Proof.
  unfold step.
  match goal with
  | |- context [fold_left runTimer ?ts ?w0] =>
      destruct (fold_runTimer_ids ts w0) as [Hn Hf]
  end.
  cbn in *. tauto.
Qed.

Lemma seeked_ids (w : World) :
  nextId (step w EvSeeked) = nextId w /\
  fileEffect (step w EvSeeked) = fileEffect w.
Proof.
  unfold step. destruct (video w) as [v|]; [|tauto].
  match goal with
  | |- context [fold_left dispatchSeeked ?ls ?w0] =>
      destruct (fold_dispatchSeeked_ids ls w0) as [Hn Hf]
  end.
  cbn in *. tauto.
Qed.

Lemma slider_ids (w : World) (value : Q) :
  hasContext w = true ->
  nextId (step w (EvSlider value)) = S (S (nextId w)) /\
  fileEffect (step w (EvSlider value)) = fileEffect w.
Proof.
  intros H. unfold hasContext in H.
  destruct (video w) as [v|] eqn:Hv; [|discriminate].
  destruct (canvas w) as [c|] eqn:Hc; [|discriminate].
  unfold step, handleSliderChange. handler_unfold. cbn.
  repeat (progress (rewrite ?Hv, ?Hc; cbn)). tauto.
Qed.

(** The metadata event: with the listener of the file effect still
    registered, the initial capture is queued 100 ms ahead. *)
Lemma metadata_shape (w : World) (d : Q) (vw vh : Z) :
  hasContext w = true ->
  let w' := step w (EvLoadedMetadata d vw vh) in
  hasContext w' = true /\ clock w' = clock w /\
  deliveries w' = deliveries w /\ fileEffect w' = fileEffect w /\
  ((timers w' = timers w /\ nextId w' = nextId w) \/
   (exists x,
      timers w' =
        enqueue (mkTimer (nextId w) (clock w + 100) (InitialCapture x))
                (timers w) /\
      nextId w' = S (nextId w))).
Proof.
  intros H. unfold hasContext in H. cbv zeta.
  destruct (video w) as [v|] eqn:Hv; [|discriminate].
  destruct (canvas w) as [c|] eqn:Hc; [|discriminate].
  unfold step. rewrite Hv.
  destruct (loadedmetadataListener v) as [selected|].
  - unfold handleLoadedMetadata. handler_unfold. cbn.
    unfold hasContext. cbn. rewrite Hc.
    split; [exact H|]. split; [reflexivity|]. split; [reflexivity|].
    split; [reflexivity|]. right. eexists. split; reflexivity.
  - unfold hasContext. cbn. rewrite Hc. tauto.
Qed.

Lemma error_shape (w : World) :
  hasContext w = true ->
  let w' := step w EvError in
  hasContext w' = true /\ clock w' = clock w /\
  deliveries w' = deliveries w /\ fileEffect w' = fileEffect w /\
  timers w' = timers w /\ nextId w' = nextId w.
Proof.
  intros H. unfold hasContext in H. cbv zeta.
  destruct (video w) as [v|] eqn:Hv; [|discriminate].
  destruct (canvas w) as [c|] eqn:Hc; [|discriminate].
  unfold step. rewrite Hv.
  destruct (errorListener v).
  - unfold handleError. handler_unfold. cbn.
    unfold hasContext. cbn. rewrite Hc. tauto.
  - unfold hasContext. rewrite Hv, Hc. tauto.
Qed.

Lemma context_shape (w : World) (available : bool) :
  hasContext w = true ->
  let w' := step w (EvContext available) in
  hasContext w' = available /\ clock w' = clock w /\
  deliveries w' = deliveries w /\ fileEffect w' = fileEffect w /\
  timers w' = timers w /\ nextId w' = nextId w.
Proof.
  intros H. unfold hasContext in H. cbv zeta.
  destruct (video w) as [v|] eqn:Hv; [|discriminate].
  destruct (canvas w) as [c|] eqn:Hc; [|discriminate].
  unfold step. handler_unfold. rewrite Hc. cbn.
  unfold hasContext. cbn. rewrite Hv. tauto.
Qed.

(** A change of the props: the cleanup clears the load timeout of the
    previous file, and unless [createObjectURL] throws, a new load
    timeout is queued, ten seconds ahead, holding the [loading] of the
    render that runs the effect. *)
Lemma props_shape (w : World) (f : File) (selected : option Q) :
  hasContext w = true ->
  let w' := step w (EvProps f selected) in
  hasContext w' = true /\ clock w' = clock w /\
  deliveries w' = deliveries w /\
  match createObjectURLThrows f with
  | Some message =>
      timers w' = timersAfterCleanup w /\ nextId w' = nextId w /\
      fileEffect w' = None /\
      loading w' = false /\ error w' = Some message
  | None =>
      timers w' =
        enqueue (mkTimer (nextId w) (clock w + 10000) (LoadTimeout (loading w)))
                (timersAfterCleanup w) /\
      nextId w' = S (nextId w) /\
      fileEffect w' = Some (nextId w) /\
      loading w' = true /\ error w' = None
  end.
Proof.
  intros H. unfold hasContext in H. cbv zeta.
  destruct (video w) as [v|] eqn:Hv; [|discriminate].
  destruct (canvas w) as [c|] eqn:Hc; [|discriminate].
  unfold step, fileEffectCleanup, runFileEffect, timersAfterCleanup.
  handler_unfold. cbn.
  destruct (fileEffect w) as [id|] eqn:He; cbn;
    repeat (progress (rewrite ?Hv, ?Hc; cbn));
    destruct (createObjectURLThrows f) as [message|]; cbn;
    unfold hasContext, deliveries; cbn;
    repeat (progress (rewrite ?Hv, ?Hc, ?He; cbn)); tauto.
Qed.

(** ** Bookkeeping of the timer queue *)

Lemma In_map_timerId_enqueue (T : Timer) (q : list Timer) (id : nat) :
  In id (map timerId (enqueue T q)) <->
  id = timerId T \/ In id (map timerId q).
Proof.
  rewrite !in_map_iff. split.
  - intros (t & <- & Ht). apply In_enqueue in Ht.
    destruct Ht as [->|Ht]; [now left|]. right. now exists t.
  - intros [->|(t & <- & Ht)].
    + exists T. split; [reflexivity|]. apply In_enqueue. now left.
    + exists t. split; [reflexivity|]. apply In_enqueue. now right.
Qed.

Lemma NoDup_enqueue (T : Timer) (q : list Timer) :
  NoDup (map timerId q) -> ~ In (timerId T) (map timerId q) ->
  NoDup (map timerId (enqueue T q)).
Proof.
  induction q as [|x q IH]; cbn; intros Hnd Hnew.
  - constructor; [intros []| constructor].
  - destruct (due T <? due x)%N; cbn.
    + constructor; [exact Hnew | exact Hnd].
    + inversion Hnd as [|? ? Hx Hq]; subst. constructor.
      * intros Hin. apply In_map_timerId_enqueue in Hin.
        destruct Hin as [Hin|Hin]; [|contradiction].
        apply Hnew. left. now symmetry.
      * apply IH; [exact Hq|]. intros Hin. apply Hnew. now right.
Qed.

Lemma NoDup_map_filter (f : Timer -> bool) (q : list Timer) :
  NoDup (map timerId q) -> NoDup (map timerId (filter f q)).
Proof.
  induction q as [|x q IH]; cbn; intros Hnd; [constructor|].
  inversion Hnd as [|? ? Hx Hq]; subst.
  destruct (f x); cbn; [|now apply IH].
  constructor; [|now apply IH].
  intros Hin. apply Hx. apply in_map_iff in Hin.
  destruct Hin as (t & E & Ht). apply filter_In in Ht.
  apply in_map_iff. exists t. tauto.
Qed.

Lemma tidyQueue_filter (f : Timer -> bool) ts next effect :
  tidyQueue ts next effect -> tidyQueue (filter f ts) next effect.
Proof.
  intros (Hnd & Hid & He & Hl). split; [|split; [|split]].
  - now apply NoDup_map_filter.
  - intros t Ht. apply filter_In in Ht. now apply Hid.
  - exact He.
  - intros t Ht. apply filter_In in Ht. now apply Hl.
Qed.

(** Queuing a capture under a fresh identifier. *)
Lemma tidyQueue_enqueue_capture (T : Timer) ts next next' effect :
  tidyQueue ts next effect ->
  (next <= timerId T < next')%nat -> isLoadTimeout T = false ->
  tidyQueue (enqueue T ts) next' effect.
Proof.
  intros (Hnd & Hid & He & Hl) Hfresh HT. split; [|split; [|split]].
  - apply NoDup_enqueue; [exact Hnd|]. intros Hin.
    apply in_map_iff in Hin. destruct Hin as (t & E & Ht).
    apply Hid in Ht. lia.
  - intros t Ht. apply In_enqueue in Ht. destruct Ht as [->|Ht]; [lia|].
    apply Hid in Ht. lia.
  - intros id Hid'. apply He in Hid'. lia.
  - intros t Ht. apply In_enqueue in Ht. destruct Ht as [->|Ht].
    + rewrite HT. split; [discriminate|]. intros E. apply He in E. lia.
    + now apply Hl.
Qed.

(** The cleanup of the file effect clears every pending load timeout. *)
Lemma tidyQueue_cleanup (w : World) :
  tidy w ->
  tidyQueue (timersAfterCleanup w) (nextId w) None /\
  (forall t, In t (timersAfterCleanup w) -> isLoadTimeout t = false).
Proof.
  unfold tidy, timersAfterCleanup. intros (Hnd & Hid & He & Hl).
  assert (Hnone : forall t,
            In t (match fileEffect w with
                  | Some id =>
                      filter (fun t => negb (Nat.eqb (timerId t) id)) (timers w)
                  | None => timers w
                  end) ->
            In t (timers w) /\ isLoadTimeout t = false).
  { intros t Ht. destruct (fileEffect w) as [id|] eqn:E.
    - apply filter_In in Ht. destruct Ht as [Ht Hne]. split; [exact Ht|].
      apply negb_true_iff, Nat.eqb_neq in Hne.
      destruct (isLoadTimeout t) eqn:El; [|reflexivity].
      apply (Hl t Ht) in El. congruence.
    - split; [exact Ht|].
      destruct (isLoadTimeout t) eqn:El; [|reflexivity].
      apply (Hl t Ht) in El. discriminate. }
  split; [|intros t Ht; now apply Hnone].
  split; [|split; [|split]].
  - destruct (fileEffect w); [now apply NoDup_map_filter | exact Hnd].
  - intros t Ht. apply Hnone in Ht. now apply Hid.
  - discriminate.
  - intros t Ht. apply Hnone in Ht. destruct Ht as [_ ->].
    split; discriminate.
Qed.

(** Queuing the load timeout of a new file effect. *)
Lemma tidyQueue_enqueue_effect (T : Timer) ts next :
  tidyQueue ts next None ->
  timerId T = next -> isLoadTimeout T = true ->
  tidyQueue (enqueue T ts) (S next) (Some next).
Proof.
  intros (Hnd & Hid & _ & Hl) HT Hload. split; [|split; [|split]].
  - apply NoDup_enqueue; [exact Hnd|]. intros Hin.
    apply in_map_iff in Hin. destruct Hin as (t & E & Ht).
    apply Hid in Ht. lia.
  - intros t Ht. apply In_enqueue in Ht. destruct Ht as [->|Ht]; [lia|].
    apply Hid in Ht. lia.
  - intros id [= <-]. lia.
  - intros t Ht. apply In_enqueue in Ht. destruct Ht as [->|Ht].
    + rewrite Hload, HT. tauto.
    + pose proof (Hid t Ht). split.
      * intros El. apply (Hl t Ht) in El. discriminate.
      * intros [= E]. lia.
Qed.

(** No timer body and no listener touches the timer queue. *)
Lemma runTimer_timers (w : World) (t : Timer) :
  timers (runTimer w t) = timers w.
Proof.
  unfold runTimer, timerBody.
  destruct (body t) as [x | b | x h].
  - pose proof (captureFrame_leaves_session x (withClock (due t) w)) as F.
    cbv zeta in F. unfold exec in F. handler_unfold.
    destruct (captureFrame x (withClock (due t) w)); cbn in *; tauto.
  - destruct b; handler_unfold; cbn; tauto.
  - handler_unfold. cbn.
    destruct (video w) as [v|] eqn:Hv; cbn; [|tauto].
    match goal with
    | |- context [captureFrame x ?w0] =>
        pose proof (captureFrame_leaves_session x w0) as F;
        cbv zeta in F; unfold exec in F;
        destruct (captureFrame x w0); cbn in *; tauto
    end.
Qed.

Lemma fold_runTimer_timers (ts : list Timer) (w : World) :
  timers (fold_left runTimer ts w) = timers w.
Proof.
  revert w. induction ts as [|t ts IH]; intros w; cbn; [reflexivity|].
  rewrite IH. apply runTimer_timers.
Qed.

Lemma dispatchSeeked_timers (w : World) (l : nat * Q) :
  timers (dispatchSeeked w l) = timers w.
Proof.
  unfold dispatchSeeked, handleSeeked. handler_unfold. cbn.
  destruct (video w) as [v|] eqn:Hv; cbn; [|reflexivity].
  match goal with
  | |- context [captureFrame (snd l) ?w0] =>
      pose proof (captureFrame_leaves_session (snd l) w0) as F;
      cbv zeta in F; unfold exec in F;
      destruct (captureFrame (snd l) w0) as [[] w'|e w']; cbn in *
  end.
  - destruct F as (_ & _ & _ & _ & Ht & _ & Hv' & _).
    rewrite Hv'. cbn. exact Ht.
  - tauto.
Qed.

Lemma fold_dispatchSeeked_timers (ls : list (nat * Q)) (w : World) :
  timers (fold_left dispatchSeeked ls w) = timers w.
Proof.
  revert w. induction ls as [|l ls IH]; intros w; cbn; [reflexivity|].
  rewrite IH. apply dispatchSeeked_timers.
Qed.

(** The bookkeeping survives every event, whatever the store. *)
Lemma tidy_step (w : World) (ev : Event) : tidy w -> tidy (step w ev).
Proof.
  unfold tidy. intros Hw.
  destruct ev as [d vw vh | | | value | ms | f selected | available].
  - (* metadata *)
    unfold step. destruct (video w) as [v|] eqn:Hv; [|exact Hw].
    destruct (loadedmetadataListener v) as [sel|]; [|exact Hw].
    unfold handleLoadedMetadata. handler_unfold. cbn.
    eapply tidyQueue_enqueue_capture; [exact Hw | cbn; lia | reflexivity].
  - (* error *)
    unfold step. destruct (video w) as [v|] eqn:Hv; [|exact Hw].
    destruct (errorListener v); [|exact Hw].
    unfold handleError. handler_unfold. cbn. exact Hw.
  - (* seeked *)
    destruct (seeked_ids w) as [-> ->].
    unfold step. destruct (video w) as [v|]; [|exact Hw].
    rewrite fold_dispatchSeeked_timers. exact Hw.
  - (* slider *)
    unfold step, handleSliderChange. handler_unfold. cbn.
    destruct (video w) as [v|] eqn:Hv; [|exact Hw].
    destruct (canvas w) as [c|] eqn:Hc; [|exact Hw].
    repeat (progress (rewrite ?Hv, ?Hc; cbn)).
    eapply tidyQueue_enqueue_capture; [exact Hw | cbn; lia | reflexivity].
  - (* wait *)
    destruct (wait_ids w ms) as [-> ->].
    unfold step. cbn. rewrite fold_runTimer_timers. cbn.
    now apply tidyQueue_filter.
  - (* props *)
    destruct (tidyQueue_cleanup w Hw) as [Hclean Hnone].
    unfold timersAfterCleanup in *.
    unfold step, fileEffectCleanup, runFileEffect. handler_unfold. cbn.
    destruct f as [[message|]];
      destruct (fileEffect w) as [id|] eqn:He;
      destruct (video w) as [v|] eqn:Hv;
      destruct (canvas w) as [c|] eqn:Hc; cbn;
      repeat (progress (rewrite ?Hv, ?Hc, ?He; cbn)).
    all: try exact Hclean.
    all: try (apply tidyQueue_enqueue_effect; [exact Hclean | reflexivity..]).
    all: try exact Hw.
    (* the cleanup stopped at the missing video element *)
    all: destruct Hclean as (Hnd & Hid & _ & _);
      destruct Hw as (_ & _ & Heff & _);
      (split; [exact Hnd | split; [exact Hid | split; [exact Heff|]]]);
      intros t Ht; rewrite (Hnone t Ht); split; [discriminate|];
      intros [= ->]; apply filter_In in Ht; destruct Ht as [_ Hne];
      apply negb_true_iff, Nat.eqb_neq in Hne; congruence.
  - (* context *)
    unfold step. handler_unfold.
    destruct (canvas w) as [c|]; cbn; exact Hw.
Qed.

Lemma tidy_run (evs : list Event) (w : World) : tidy w -> tidy (run w evs).
Proof.
  revert w. induction evs as [|ev evs IH]; intros w Hw; [exact Hw|].
  change (run w (ev :: evs)) with (run (step w ev) evs).
  apply IH. now apply tidy_step.
Qed.

Lemma tidy_mount (f : File) (selected : option Q)
    (throws : DataUrl -> Q -> bool) (context : bool) :
  tidy (mount f selected throws context).
Proof.
  destruct f as [[message|]]; unfold tidy; cbn.
  - split; [constructor|]. split; [intros t []|].
    split; [discriminate | intros t []].
  - split; [repeat constructor; intros []|].
    split; [intros t [<-|[]]; cbn; lia|].
    split; [intros id [= <-]; lia|].
    intros t [<-|[]]. cbn. tauto.
Qed.

Lemma tidyQueue_one_load_timeout ts next effect :
  tidyQueue ts next effect ->
  (List.length (filter isLoadTimeout ts) <= 1)%nat.
Proof.
  intros (Hnd & _ & _ & Hl).
  induction ts as [|x ts IH]; cbn; [lia|].
  inversion Hnd as [|? ? Hx Hts]; subst.
  assert (IH' : (List.length (filter isLoadTimeout ts) <= 1)%nat).
  { apply IH; [exact Hts|]. intros t Ht. apply Hl. now right. }
  destruct (isLoadTimeout x) eqn:Ex; [|exact IH'].
  destruct (filter isLoadTimeout ts) as [|y r] eqn:Ey; [cbn; lia|].
  exfalso. assert (Hy : In y (filter isLoadTimeout ts))
    by (rewrite Ey; now left).
  apply filter_In in Hy. destruct Hy as [Hy Ly].
  apply (Hl x (or_introl eq_refl)) in Ex.
  apply (Hl y (or_intror Hy)) in Ly.
  apply Hx. apply in_map_iff. exists y. split; [congruence | exact Hy].
Qed.

(** X3. However the component got to its present store from mounting,
    whichever files were swapped in and whatever the decoder and the
    user did, at most one load timeout is pending, and it is the one
    whose identifier the cleanup of the current file effect will
    clear. *)
Theorem one_load_timeout_at_most
    (f : File) (selected : option Q) (throws : DataUrl -> Q -> bool)
    (context : bool) (evs : list Event) :
  (List.length
     (filter isLoadTimeout
        (timers (run (mount f selected throws context) evs))) <= 1)%nat /\
  (forall t,
     In t (timers (run (mount f selected throws context) evs)) ->
     isLoadTimeout t = true ->
     fileEffect (run (mount f selected throws context) evs) =
       Some (timerId t)).
Proof.
  pose proof (tidy_run evs _ (tidy_mount f selected throws context)) as Hw.
  split.
  - eapply tidyQueue_one_load_timeout. exact Hw.
  - intros t Ht Hl. destruct Hw as (_ & _ & _ & H). now apply (H t Ht).
Qed.

(** ** Reachable stores are orderly *)

Lemma pendingCaptures_timersAfterCleanup (w : World) (p : Q * N) :
  In p (pendingCaptures (timersAfterCleanup w)) ->
  In p (pendingCaptures (timers w)).
Proof.
  unfold timersAfterCleanup. destruct (fileEffect w) as [id|]; [|tauto].
  intros H.
  apply (In_pendingCaptures_filter
           (fun t => negb (Nat.eqb (timerId t) id))). now left.
Qed.

Lemma inFiringOrder_timersAfterCleanup (w : World) :
  inFiringOrder (timers w) -> inFiringOrder (timersAfterCleanup w).
Proof.
  unfold timersAfterCleanup. destruct (fileEffect w) as [id|]; [|tauto].
  apply filter_inFiringOrder.
Qed.

Lemma orderly_step (w : World) (ev : Event) :
  orderly w -> keepsContext ev = true -> orderly (step w ev).
Proof.
  intros Ho Hev. pose proof Ho as [[Hctx Hdue] Horder].
  rewrite Forall_forall in Hdue.
  destruct ev as [d vw vh | | | value | ms | f selected | available].
  - (* metadata *)
    destruct (metadata_shape w d vw vh Hctx)
      as (H1 & Hk & _ & _ & [[Ht Hn] | (x & Ht & Hn)]);
      unfold orderly, sound; rewrite H1, Hk, Ht.
    + split; [split; [reflexivity | now apply Forall_forall] | exact Horder].
    + split; [split; [reflexivity|] | now apply enqueue_inFiringOrder].
      apply Forall_forall. intros p Hp.
      apply In_pendingCaptures_enqueue in Hp. destruct Hp as [Hp|Hp].
      * cbn in Hp. destruct Hp as [<-|[]]. cbn. lia.
      * now apply Hdue.
  - (* error *)
    destruct (error_shape w Hctx) as (H1 & Hk & _ & _ & Ht & _).
    unfold orderly, sound. rewrite H1, Hk, Ht.
    split; [split; [reflexivity | now apply Forall_forall] | exact Horder].
  - (* seeked *)
    destruct (scrub_step w EvSeeked (proj1 Ho) eq_refl) as (Hs & _).
    destruct (seeked_deliveries w Hctx) as (_ & _ & Ht & _).
    split; [exact Hs | now rewrite Ht].
  - now apply quiet_step.
  - now apply quiet_step.
  - (* props *)
    destruct (props_shape w f selected Hctx) as (H1 & Hk & _ & Hshape).
    assert (Hclean : forall p, In p (pendingCaptures (timersAfterCleanup w)) ->
                       (clock w < snd p <= clock w + 500)%N).
    { intros p Hp. apply Hdue. now apply pendingCaptures_timersAfterCleanup. }
    unfold orderly, sound. rewrite H1, Hk.
    destruct (createObjectURLThrows f) as [message|];
      destruct Hshape as (Ht & _); rewrite Ht.
    + split; [split; [reflexivity | now apply Forall_forall]|].
      now apply inFiringOrder_timersAfterCleanup.
    + split; [split; [reflexivity|]|].
      * apply Forall_forall. intros p Hp.
        apply In_pendingCaptures_enqueue in Hp.
        destruct Hp as [[]|Hp]. now apply Hclean.
      * apply enqueue_inFiringOrder.
        now apply inFiringOrder_timersAfterCleanup.
  - (* context *)
    destruct available; [|discriminate].
    destruct (context_shape w true Hctx) as (H1 & Hk & _ & _ & Ht & _).
    unfold orderly, sound. rewrite H1, Hk, Ht.
    split; [split; [reflexivity | now apply Forall_forall] | exact Horder].
Qed.

Lemma orderly_mount (f : File) (selected : option Q)
    (throws : DataUrl -> Q -> bool) :
  orderly (mount f selected throws true).
Proof.
  destruct f as [[message|]]; unfold orderly, sound; cbn.
  - split; [split; [reflexivity | constructor] | exact I].
  - split; [split; [reflexivity | constructor]|].
    split; [constructor | exact I].
Qed.

Lemma wellFormed_mount (f : File) (selected : option Q)
    (throws : DataUrl -> Q -> bool) :
  wellFormed (mount f selected throws true).
Proof. split; [apply orderly_mount | apply tidy_mount]. Qed.

Lemma wellFormed_run (evs : list Event) (w : World) :
  wellFormed w -> forallb keepsContext evs = true ->
  wellFormed (run w evs).
Proof.
  intros [Ho Ht] Hevs. split; [|now apply tidy_run].
  revert w Ho Ht Hevs. induction evs as [|ev evs IH]; intros w Ho Ht Hevs;
    [exact Ho|].
  cbn in Hevs. apply andb_true_iff in Hevs. destruct Hevs as [Hev Hevs].
  change (run w (ev :: evs)) with (run (step w ev) evs).
  apply IH; [now apply orderly_step | now apply tidy_step | exact Hevs].
Qed.

(** X4. As long as the canvas keeps handing out its context, every
    store reachable from mounting is well formed: each pending capture
    is due within the next 500 ms, the queue is in firing order, timer
    identifiers are distinct and below the next fresh one, and a pending
    load timeout is the one of the current file effect. *)
Theorem reachable_wellFormed
    (f : File) (selected : option Q) (throws : DataUrl -> Q -> bool)
    (evs : list Event) :
  forallb keepsContext evs = true ->
  wellFormed (run (mount f selected throws true) evs).
Proof. intros Hevs. apply wellFormed_run; [apply wellFormed_mount | exact Hevs]. Qed.

Lemma reachable_wellFormed_witness :
  wellFormed
    (run (mount goodFile (Some 5) neverThrows true)
         [EvWait 50; EvLoadedMetadata 30 640 480; EvWait 100; EvSlider 7;
          EvSeeked; EvProps goodFile None; EvContext true; EvWait 400;
          EvError]).
Proof.
  apply (reachable_wellFormed goodFile (Some 5) neverThrows
           [EvWait 50; EvLoadedMetadata 30 640 480; EvWait 100; EvSlider 7;
            EvSeeked; EvProps goodFile None; EvContext true; EvWait 400;
            EvError]).
  reflexivity.
Defined.

(** ** The load timeout *)

(** X5. The load timeout set at mount is never cancelled by a successful
    load: when the metadata arrived in time and the first frame was
    delivered, the timeout still fires ten seconds after mount and
    replaces the scrubber by the error box. *)
Theorem load_timeout_fires_after_successful_load
    (selected : option Q) (throws : DataUrl -> Q -> bool)
    (d : Q) (vw vh : Z) (delay ms : N) :
  (delay + 100 < 10000)%N -> (10000 <= delay + 100 + ms)%N ->
  status (run (mount goodFile selected throws true)
              [EvWait delay; EvLoadedMetadata d vw vh; EvWait 100]) = Ready /\
  status (run (mount goodFile selected throws true)
              [EvWait delay; EvLoadedMetadata d vw vh; EvWait 100;
               EvWait ms]) =
    Error "Video took too long to load. Please try again." /\
  deliveries (run (mount goodFile selected throws true)
                [EvWait delay; EvLoadedMetadata d vw vh; EvWait 100;
                 EvWait ms]) =
    [(initialTimeOf selected, (delay + 100)%N)].
Proof.
  intros Hd Hms.
  assert (E0 : run (mount goodFile selected throws true)
                 [EvWait delay; EvLoadedMetadata d vw vh; EvWait 100] =
               firstCaptured selected throws delay d vw vh).
  { unfold run. cbn [fold_left].
    rewrite mount_goodFile, mounted_wait, mounted_metadata,
      metadataLoaded_wait by lia.
    reflexivity. }
  assert (E1 : run (mount goodFile selected throws true)
                 [EvWait delay; EvLoadedMetadata d vw vh; EvWait 100;
                  EvWait ms] =
               step (firstCaptured selected throws delay d vw vh) (EvWait ms)).
  { unfold run. cbn [fold_left].
    rewrite mount_goodFile, mounted_wait, mounted_metadata,
      metadataLoaded_wait by lia.
    reflexivity. }
  rewrite E0, E1. clear E0 E1.
  split; [reflexivity|].
  assert (E : (10000 <=? delay + 100 + ms)%N = true) by (apply N.leb_le; lia).
  unfold step, isDue, firstCaptured. cbn -[N.add N.leb clampQ runTimer].
  rewrite E. cbn -[N.add N.leb clampQ runTimer].
  unfold runTimer. cbn [body timerBody]. handler_unfold.
  cbn -[N.add clampQ]. split; reflexivity.
Qed.

Lemma load_timeout_fires_after_successful_load_witness :
  status (run (mount goodFile None neverThrows true)
              [EvWait 50; EvLoadedMetadata 30 640 480; EvWait 100]) = Ready /\
  status (run (mount goodFile None neverThrows true)
              [EvWait 50; EvLoadedMetadata 30 640 480; EvWait 100;
               EvWait 9850]) =
    Error "Video took too long to load. Please try again." /\
  deliveries (run (mount goodFile None neverThrows true)
                [EvWait 50; EvLoadedMetadata 30 640 480; EvWait 100;
                 EvWait 9850]) =
    [(initialTimeOf None, (50 + 100)%N)].
Proof.
  apply (load_timeout_fires_after_successful_load
           None neverThrows 30 640 480 50 9850).
  - vm_compute. reflexivity.
  - vm_compute. discriminate.
Defined.

Lemma runTimer_loading (w : World) (t : Timer) :
  endsLoading t = false -> loading (runTimer w t) = loading w.
Proof.
  unfold endsLoading, runTimer, timerBody.
  destruct (body t) as [x | b | x h]; intros Ht; [discriminate| |].
  - subst b. reflexivity.
  - handler_unfold. cbn.
    destruct (video w) as [v|] eqn:Hv; cbn; [|reflexivity].
    match goal with
    | |- context [captureFrame x ?w0] =>
        pose proof (captureFrame_leaves_session x w0) as F;
        cbv zeta in F; unfold exec in F;
        destruct (captureFrame x w0); cbn in *; tauto
    end.
Qed.

Lemma fold_runTimer_loading (ts : list Timer) (w : World) :
  (forall t, In t ts -> endsLoading t = false) ->
  loading (fold_left runTimer ts w) = loading w.
Proof.
  revert w. induction ts as [|t ts IH]; intros w H; cbn; [reflexivity|].
  rewrite IH by (intros x Hx; apply H; now right).
  apply runTimer_loading. apply H. now left.
Qed.

Lemma wait_timers (w : World) (ms : N) :
  timers (step w (EvWait ms)) =
  filter (fun t => negb (isDue (clock w + ms) t)) (timers w).
Proof. unfold step. cbn. now rewrite fold_runTimer_timers. Qed.

(** While no pending timer ends the loading state, slider changes and
    waiting do not end it either. *)
Lemma loading_persists_step (w : World) (ev : Event) :
  quiet ev = true ->
  loading w = true -> (forall t, In t (timers w) -> endsLoading t = false) ->
  loading (step w ev) = true /\
  (forall t, In t (timers (step w ev)) -> endsLoading t = false).
Proof.
  intros Hev Hl Ht.
  destruct ev as [| | | value | ms | |]; try discriminate.
  - unfold step, handleSliderChange. handler_unfold. cbn.
    destruct (video w) as [v|] eqn:Hv; [|cbn; tauto].
    destruct (canvas w) as [c|] eqn:Hc; [|cbn; tauto].
    repeat (progress (rewrite ?Hv, ?Hc; cbn)).
    split; [exact Hl|]. intros t Hin. apply In_enqueue in Hin.
    destruct Hin as [->|Hin]; [reflexivity | now apply Ht].
  - split.
    + unfold step. cbn. rewrite fold_runTimer_loading; [exact Hl|].
      intros t Hin. apply filter_In in Hin. now apply Ht.
    + rewrite wait_timers. intros t Hin. apply filter_In in Hin.
      now apply Ht.
Qed.

Lemma loading_persists_run (evs : list Event) (w : World) :
  forallb quiet evs = true ->
  loading w = true -> (forall t, In t (timers w) -> endsLoading t = false) ->
  loading (run w evs) = true.
Proof.
  revert w. induction evs as [|ev evs IH]; intros w Hevs Hl Ht; [exact Hl|].
  cbn in Hevs. apply andb_true_iff in Hevs. destruct Hevs as [Hev Hevs].
  change (run w (ev :: evs)) with (run (step w ev) evs).
  destruct (loading_persists_step w ev Hev Hl Ht) as [Hl' Ht'].
  now apply IH.
Qed.

(** X6. A file swapped in while the component is not loading gets a load
    timeout that can never report: its closure holds [loading = false].
    Unless an older timer is about to end the loading state, slider
    changes and any amount of waiting leave the loading skeleton on
    screen; only a media event can end the load. *)
Theorem swapped_file_load_timeout_is_inert
    (w : World) (selected : option Q) (evs : list Event) :
  hasContext w = true -> loading w = false ->
  (forall t, In t (timersAfterCleanup w) -> endsLoading t = false) ->
  forallb quiet evs = true ->
  status (run (step w (EvProps goodFile selected)) evs) = Loading.
Proof.
  intros Hctx Hl Ht Hevs. unfold goodFile.
  destruct (props_shape w (mkFile None) selected Hctx) as (_ & _ & _ & Hshape).
  cbn [createObjectURLThrows] in Hshape.
  destruct Hshape as (Htimers & _ & _ & Hloading & _).
  unfold status. rewrite loading_persists_run; [reflexivity | exact Hevs | exact Hloading|].
  rewrite Htimers. intros t Hin. apply In_enqueue in Hin.
  destruct Hin as [->|Hin]; [exact Hl | now apply Ht].
Qed.

Lemma swapped_file_load_timeout_is_inert_witness :
  status (run (step (step readyWorld (EvSlider 5)) (EvProps goodFile None))
              [EvWait 20000; EvSlider 3; EvWait 40000]) = Loading.
Proof.
  apply (swapped_file_load_timeout_is_inert
           (step readyWorld (EvSlider 5)) None
           [EvWait 20000; EvSlider 3; EvWait 40000]).
  - vm_compute. reflexivity.
  - vm_compute. reflexivity.
  - vm_compute. intros t [<-|[]]. reflexivity.
  - reflexivity.
Defined.

Lemma decoder_rejection_renders_error_witness :
  status (run (mount goodFile (Some 5) neverThrows true)
              [EvWait 300; EvError]) =
    Error "Failed to load video. Please try a different file." /\
  calls (run (mount goodFile (Some 5) neverThrows true)
             [EvWait 300; EvError]) = [].
Proof.
  apply (decoder_rejection_renders_error (Some 5) neverThrows 300).
  vm_compute. reflexivity.
Defined.

(** ** Teardown *)

Lemma pendingCaptures_without_load_timeout (id : nat) (ts : list Timer) :
  (forall t, In t ts -> timerId t = id -> isLoadTimeout t = true) ->
  pendingCaptures (filter (fun t => negb (Nat.eqb (timerId t) id)) ts) =
  pendingCaptures ts.
Proof.
  induction ts as [|x ts IH]; intros H; cbn; [reflexivity|].
  fold (pendingCaptures ts).
  assert (IH' : pendingCaptures
                  (filter (fun t => negb (Nat.eqb (timerId t) id)) ts) =
                pendingCaptures ts)
    by (apply IH; intros t Ht; apply H; now right).
  destruct (Nat.eqb (timerId x) id) eqn:E; cbn.
  - apply Nat.eqb_eq in E. pose proof (H x (or_introl eq_refl) E) as Hx.
    unfold isLoadTimeout in Hx. unfold captureOf.
    destruct (body x); try discriminate. cbn. exact IH'.
  - fold (pendingCaptures
            (filter (fun t => negb (Nat.eqb (timerId t) id)) ts)).
    now rewrite IH'.
Qed.

Lemma unmount_shape (w : World) :
  hasContext w = true ->
  hasContext (unmount w) = true /\ clock (unmount w) = clock w /\
  deliveries (unmount w) = deliveries w /\
  timers (unmount w) = timersAfterCleanup w.
Proof.
  intros H. unfold hasContext in H.
  destruct (video w) as [v|] eqn:Hv; [|discriminate].
  destruct (canvas w) as [c|] eqn:Hc; [|discriminate].
  unfold unmount, fileEffectCleanup, timersAfterCleanup, hasContext, deliveries.
  handler_unfold.
  destruct (fileEffect w) as [id|] eqn:He; cbn;
    repeat (progress (rewrite ?Hv, ?Hc; cbn)); tauto.
Qed.

(** X7. Unmounting clears the load timeout and nothing else: every
    capture that was pending is still made.  500 ms after the unmount
    [onFrameSelect] has been called for each of them, in the order of
    the queue. *)
Theorem unmount_does_not_cancel_captures (w : World) :
  wellFormed w ->
  filter isLoadTimeout (timers (unmount w)) = [] /\
  deliveries (step (unmount w) (EvWait 500)) =
    deliveries w ++ pendingCaptures (timers w).
Proof.
  intros [[[Hctx Hdue] Horder] Htidy].
  destruct (unmount_shape w Hctx) as (H1 & Hk & Hd & Ht).
  destruct (tidyQueue_cleanup w Htidy) as [_ Hnone].
  assert (Hpc : pendingCaptures (timersAfterCleanup w) =
                pendingCaptures (timers w)).
  { unfold timersAfterCleanup. destruct (fileEffect w) as [id|] eqn:He;
      [|reflexivity].
    apply pendingCaptures_without_load_timeout. intros t Hin Hid.
    destruct Htidy as (_ & _ & _ & Hl). apply (Hl t Hin). congruence. }
  split.
  - rewrite Ht.
    destruct (filter isLoadTimeout (timersAfterCleanup w)) as [|t r] eqn:E;
      [reflexivity|].
    assert (Hin : In t (filter isLoadTimeout (timersAfterCleanup w)))
      by (rewrite E; now left).
    apply filter_In in Hin. destruct Hin as [Hin Hl].
    rewrite (Hnone t Hin) in Hl. discriminate.
  - destruct (wait_effect (unmount w) 500 H1) as (_ & _ & _ & Hw).
    rewrite Hw, Hd, Ht, Hk. f_equal.
    assert (Ho : inFiringOrder (timersAfterCleanup w))
      by now apply inFiringOrder_timersAfterCleanup.
    rewrite <- Hpc.
    rewrite (due_timers_first (clock w + 500) (timersAfterCleanup w) Ho) at 2.
    rewrite pendingCaptures_app, pendingCaptures_none_late, app_nil_r;
      [reflexivity|].
    rewrite Hpc. eapply Forall_impl; [|exact Hdue]. cbn. intros p Hp. lia.
Qed.

Lemma unmount_does_not_cancel_captures_witness :
  filter isLoadTimeout
    (timers (unmount (run (mount goodFile None neverThrows true)
                          [EvWait 50; EvLoadedMetadata 30 640 480; EvWait 100;
                           EvSlider 7; EvWait 100; EvSlider 9]))) = [] /\
  deliveries
    (step (unmount (run (mount goodFile None neverThrows true)
                        [EvWait 50; EvLoadedMetadata 30 640 480; EvWait 100;
                         EvSlider 7; EvWait 100; EvSlider 9]))
          (EvWait 500)) =
    deliveries (run (mount goodFile None neverThrows true)
                    [EvWait 50; EvLoadedMetadata 30 640 480; EvWait 100;
                     EvSlider 7; EvWait 100; EvSlider 9]) ++
    pendingCaptures
      (timers (run (mount goodFile None neverThrows true)
                   [EvWait 50; EvLoadedMetadata 30 640 480; EvWait 100;
                    EvSlider 7; EvWait 100; EvSlider 9])).
Proof.
  apply (unmount_does_not_cancel_captures
           (run (mount goodFile None neverThrows true)
                [EvWait 50; EvLoadedMetadata 30 640 480; EvWait 100;
                 EvSlider 7; EvWait 100; EvSlider 9])).
  apply wellFormed_run; [apply wellFormed_mount | reflexivity].
Defined.

(** ** A file whose object URL cannot be created *)

Lemma silent_step (w : World) (ev : Event) :
  passive ev = true -> silent w ->
  silent (step w ev) /\
  loading (step w ev) = loading w /\ error (step w ev) = error w.
Proof.
  intros Hev (Ht & Hc & v & Hv & Hs & Hm & He). unfold silent.
  destruct ev as [d vw vh | | | value | ms | f selected | available];
    try discriminate; unfold step.
  - rewrite Hv, Hm. cbn. rewrite Ht, Hc.
    split; [|tauto]. split; [reflexivity|]. split; [reflexivity|].
    eexists. split; [reflexivity|]. cbn. tauto.
  - rewrite Hv, He. rewrite Ht, Hc, Hv.
    split; [|tauto]. split; [reflexivity|]. split; [reflexivity|].
    exists v. tauto.
  - rewrite Hv, Hs. cbn. rewrite Ht, Hc.
    split; [|tauto]. split; [reflexivity|]. split; [reflexivity|].
    eexists. split; [reflexivity|]. cbn. tauto.
  - rewrite Ht. cbn. rewrite Hc, Hv.
    split; [|tauto]. split; [reflexivity|]. split; [reflexivity|].
    exists v. tauto.
  - handler_unfold. destruct (canvas w) as [c|]; cbn; rewrite Ht, Hc, Hv.
    + split; [|tauto]. split; [reflexivity|]. split; [reflexivity|].
      exists v. tauto.
    + split; [|tauto]. split; [reflexivity|]. split; [reflexivity|].
      exists v. tauto.
Qed.

(** X8. When [URL.createObjectURL] throws for the file with a message
    that is not empty, the error box shows the message of the
    exception, and the component is inert: no timer and no media
    listener was registered, so whatever the decoder does and however
    long one waits, the error stays and [onFrameSelect] is never
    called. *)
Theorem createObjectURL_failure_is_terminal
    (message : string) (selected : option Q)
    (throws : DataUrl -> Q -> bool) (context : bool) (evs : list Event) :
  message <> EmptyString ->
  forallb passive evs = true ->
  status (run (mount (mkFile (Some message)) selected throws context) evs) =
    Error message /\
  calls (run (mount (mkFile (Some message)) selected throws context) evs) = [] /\
  timers (run (mount (mkFile (Some message)) selected throws context) evs) = [].
Proof.
  intros Hmessage Hevs.
  assert (H0 : silent (mount (mkFile (Some message)) selected throws context) /\
               loading (mount (mkFile (Some message)) selected throws context)
                 = false /\
               error (mount (mkFile (Some message)) selected throws context)
                 = Some message).
  { unfold silent. cbn. split; [|tauto].
    split; [reflexivity|]. split; [reflexivity|].
    eexists. split; [reflexivity|]. cbn. tauto. }
  revert H0.
  generalize (mount (mkFile (Some message)) selected throws context) as w.
  induction evs as [|ev evs IH]; intros w (Hs & Hl & He).
  - unfold status. cbn. rewrite Hl, He. destruct Hs as (Ht & Hc & _).
    destruct message as [|c message]; [contradiction | tauto].
  - cbn in Hevs. apply andb_true_iff in Hevs. destruct Hevs as [Hev Hevs].
    change (run w (ev :: evs)) with (run (step w ev) evs).
    destruct (silent_step w ev Hev Hs) as (Hs' & Hl' & He').
    apply IH; [exact Hevs|]. rewrite Hl', He'. tauto.
Qed.

Lemma createObjectURL_failure_is_terminal_witness :
  status (run (mount (mkFile (Some "Failed to execute 'createObjectURL'"))
                     None neverThrows true)
              [EvWait 10000; EvLoadedMetadata 30 640 480; EvWait 100;
               EvSeeked; EvError]) =
    Error "Failed to execute 'createObjectURL'" /\
  calls (run (mount (mkFile (Some "Failed to execute 'createObjectURL'"))
                    None neverThrows true)
             [EvWait 10000; EvLoadedMetadata 30 640 480; EvWait 100;
              EvSeeked; EvError]) = [] /\
  timers (run (mount (mkFile (Some "Failed to execute 'createObjectURL'"))
                     None neverThrows true)
              [EvWait 10000; EvLoadedMetadata 30 640 480; EvWait 100;
               EvSeeked; EvError]) = [].
Proof.
  apply (createObjectURL_failure_is_terminal
           "Failed to execute 'createObjectURL'" None neverThrows true
           [EvWait 10000; EvLoadedMetadata 30 640 480; EvWait 100;
            EvSeeked; EvError]).
  - discriminate.
  - reflexivity.
Defined.

(** ** A file swapped in before the initial capture *)

Lemma metadataLoaded_props selected selected' throws (now : N) d vw vh :
  step (metadataLoaded selected throws now d vw vh)
       (EvProps goodFile selected') =
  swappedEarly selected selected' throws now d.
Proof.
  assert (E : (now + 10000 <? now + 100)%N = false) by (apply N.ltb_ge; lia).
  cbv -[N.add N.ltb N.leb clampQ initialTimeOf]. rewrite E. reflexivity.
Qed.

(** X9. The cleanup of the file effect does not cancel the initial
    capture.  When the props change after the metadata of a file arrived
    and before its initial capture was made, that capture still fires
    100 ms after the metadata: [onFrameSelect] is called with the old
    initial timestamp and a frame without picture, and the loading state
    ends with the old duration although the new file has no metadata
    yet. *)
Theorem initial_capture_survives_file_swap
    (selected selected' : option Q) (throws : DataUrl -> Q -> bool)
    (d : Q) (vw vh : Z) (delay : N) :
  (delay + 100 < 10000)%N ->
  status (run (mount goodFile selected throws true)
              [EvWait delay; EvLoadedMetadata d vw vh;
               EvProps goodFile selected'; EvWait 100]) = Ready /\
  duration (run (mount goodFile selected throws true)
              [EvWait delay; EvLoadedMetadata d vw vh;
               EvProps goodFile selected'; EvWait 100]) = d /\
  deliveries (run (mount goodFile selected throws true)
              [EvWait delay; EvLoadedMetadata d vw vh;
               EvProps goodFile selected'; EvWait 100]) =
    [(initialTimeOf selected, (delay + 100)%N)] /\
  map (fun c => jpegPicture (frameDataUrl c))
      (calls (run (mount goodFile selected throws true)
                [EvWait delay; EvLoadedMetadata d vw vh;
                 EvProps goodFile selected'; EvWait 100])) = [None] /\
  option_map mediaDuration
    (video (run (mount goodFile selected throws true)
              [EvWait delay; EvLoadedMetadata d vw vh;
               EvProps goodFile selected'; EvWait 100])) = Some None.
Proof.
  intros Hd.
  assert (E0 : run (mount goodFile selected throws true)
                 [EvWait delay; EvLoadedMetadata d vw vh;
                  EvProps goodFile selected'; EvWait 100] =
               step (swappedEarly selected selected' throws delay d)
                    (EvWait 100)).
  { unfold run. cbn [fold_left].
    rewrite mount_goodFile, mounted_wait, mounted_metadata,
      metadataLoaded_props by lia.
    reflexivity. }
  rewrite E0. clear E0.
  assert (E3 : (delay + 100 <=? delay + 100)%N = true) by (apply N.leb_refl).
  assert (E4 : (delay + 10000 <=? delay + 100)%N = false)
    by (apply N.leb_gt; lia).
  cbv -[N.add N.ltb N.leb clampQ initialTimeOf]. rewrite E3, E4.
  cbv -[N.add N.ltb N.leb clampQ initialTimeOf].
  match goal with
  | |- context [throws ?frame ?t] => destruct (throws frame t)
  end;
  (split; [|split; [|split; [|split]]]); reflexivity.
Qed.

Lemma initial_capture_survives_file_swap_witness :
  status (run (mount goodFile (Some 5) neverThrows true)
              [EvWait 50; EvLoadedMetadata 30 640 480;
               EvProps goodFile None; EvWait 100]) = Ready /\
  duration (run (mount goodFile (Some 5) neverThrows true)
              [EvWait 50; EvLoadedMetadata 30 640 480;
               EvProps goodFile None; EvWait 100]) = 30 /\
  deliveries (run (mount goodFile (Some 5) neverThrows true)
              [EvWait 50; EvLoadedMetadata 30 640 480;
               EvProps goodFile None; EvWait 100]) =
    [(initialTimeOf (Some 5), (50 + 100)%N)] /\
  map (fun c => jpegPicture (frameDataUrl c))
      (calls (run (mount goodFile (Some 5) neverThrows true)
                [EvWait 50; EvLoadedMetadata 30 640 480;
                 EvProps goodFile None; EvWait 100])) = [None] /\
  option_map mediaDuration
    (video (run (mount goodFile (Some 5) neverThrows true)
              [EvWait 50; EvLoadedMetadata 30 640 480;
               EvProps goodFile None; EvWait 100])) = Some None.
Proof.
  apply (initial_capture_survives_file_swap
           (Some 5) None neverThrows 30 640 480 50).
  vm_compute. reflexivity.
Defined.

(** ** The time label *)

Lemma Qfloor_div_60 (x : Q) : Qfloor (x / 60) = (Qfloor x / 60)%Z.
Proof.
  destruct x as [n d]. unfold Qdiv, Qmult, Qinv, Qfloor. cbn.
  rewrite Z.mul_1_r, Pos2Z.inj_mul, Z.div_div by lia. reflexivity.
Qed.

Lemma Qtruncate_nonneg_div_60 (x : Q) :
  (0 <= x)%Q -> Qtruncate (x / 60) = (Qfloor x / 60)%Z.
Proof.
  intros H. unfold Qtruncate.
  assert (E : Qle_bool 0 (x / 60) = true).
  { apply Qle_bool_iff. destruct x as [n d].
    unfold Qle, Qdiv, Qmult, Qinv in *. cbn in *. lia. }
  rewrite E. apply Qfloor_div_60.
Qed.

Lemma Qfloor_jsRemainder_60 (x : Q) :
  (0 <= x)%Q -> Qfloor (jsRemainder x 60) = (Qfloor x mod 60)%Z.
Proof.
  intros H. unfold jsRemainder. rewrite (Qtruncate_nonneg_div_60 x H).
  destruct x as [n d]. unfold Qfloor at 1 3.
  unfold Qminus, Qplus, Qopp, Qmult, inject_Z. cbn -[Z.mul Z.div Z.modulo].
  set (m := (n / Z.pos d / 60)%Z).
  replace (n * 1 + - (60 * m) * Z.pos d)%Z
    with (n + (- (60 * m)) * Z.pos d)%Z by lia.
  rewrite Pos.mul_1_r, Z.div_add by lia.
  unfold m. rewrite (Z.mod_eq (n / Z.pos d) 60) by lia. lia.
Qed.

Lemma padStart_twoDigits (r : Z) :
  (0 <= r < 60)%Z -> padStart 2 "0"%char (stringOfZ r) = twoDigits r.
Proof.
  intros H.
  assert (E : exists k, (k < 60)%nat /\ r = Z.of_nat k)
    by (exists (Z.to_nat r); lia).
  destruct E as (k & Hk & ->). clear H.
  do 60 (destruct k as [|k]; [vm_compute; reflexivity|]). lia.
Qed.

(** X10. For a time that is not negative the label is the clock reading
    of the whole seconds: the minutes, a colon, and the seconds of the
    minute written with exactly two digits. *)
Theorem formatTime_is_minutes_and_two_digit_seconds (seconds : Q) :
  (0 <= seconds)%Q ->
  formatTime seconds =
    (stringOfZ (Qfloor seconds / 60) ++ ":" ++
     twoDigits (Qfloor seconds mod 60))%string.
Proof.
  intros H. unfold formatTime.
  rewrite Qfloor_div_60, (Qfloor_jsRemainder_60 seconds H).
  rewrite padStart_twoDigits; [reflexivity|].
  apply Z.mod_pos_bound. lia.
Qed.

Lemma formatTime_is_minutes_and_two_digit_seconds_witness :
  formatTime (251 # 2) =
    (stringOfZ (Qfloor (251 # 2) / 60) ++ ":" ++
     twoDigits (Qfloor (251 # 2) mod 60))%string.
Proof.
  apply (formatTime_is_minutes_and_two_digit_seconds (251 # 2)).
  vm_compute. discriminate.
Defined.

(** ** Media errors and a missing context during the load *)

(** X11. The ['error'] listener stays registered after the metadata
    arrived: a decoder error that follows a successful load replaces the
    scrubber by the error box, and the frame delivered before stays
    delivered. *)
Theorem decoder_error_after_load_renders_error
    (selected : option Q) (throws : DataUrl -> Q -> bool)
    (d : Q) (vw vh : Z) (delay : N) :
  (delay + 100 < 10000)%N ->
  status (run (mount goodFile selected throws true)
              [EvWait delay; EvLoadedMetadata d vw vh; EvWait 100;
               EvError]) =
    Error "Failed to load video. Please try a different file." /\
  deliveries (run (mount goodFile selected throws true)
                [EvWait delay; EvLoadedMetadata d vw vh; EvWait 100;
                 EvError]) =
    [(initialTimeOf selected, (delay + 100)%N)].
Proof.
  intros Hd.
  assert (E0 : run (mount goodFile selected throws true)
                 [EvWait delay; EvLoadedMetadata d vw vh; EvWait 100;
                  EvError] =
               step (firstCaptured selected throws delay d vw vh) EvError).
  { unfold run. cbn [fold_left].
    rewrite mount_goodFile, mounted_wait, mounted_metadata,
      metadataLoaded_wait by lia.
    reflexivity. }
  rewrite E0. clear E0.
  cbv -[N.add N.ltb N.leb clampQ initialTimeOf]. split; reflexivity.
Qed.

Lemma decoder_error_after_load_renders_error_witness :
  status (run (mount goodFile (Some 5) neverThrows true)
              [EvWait 50; EvLoadedMetadata 30 640 480; EvWait 100;
               EvError]) =
    Error "Failed to load video. Please try a different file." /\
  deliveries (run (mount goodFile (Some 5) neverThrows true)
                [EvWait 50; EvLoadedMetadata 30 640 480; EvWait 100;
                 EvError]) =
    [(initialTimeOf (Some 5), (50 + 100)%N)].
Proof.
  apply (decoder_error_after_load_renders_error
           (Some 5) neverThrows 30 640 480 50).
  vm_compute. reflexivity.
Defined.

(** X12. The loading state ends whether or not the initial capture
    succeeds: when the canvas gives no 2d context, the metadata of the
    file still brings up the scrubber, no frame is delivered, and the
    failure is only written to the console. *)
Theorem load_completes_without_context
    (selected : option Q) (throws : DataUrl -> Q -> bool)
    (d : Q) (vw vh : Z) (delay : N) :
  (delay + 100 < 10000)%N ->
  status (run (mount goodFile selected throws false)
              [EvWait delay; EvLoadedMetadata d vw vh; EvWait 100]) = Ready /\
  calls (run (mount goodFile selected throws false)
             [EvWait delay; EvLoadedMetadata d vw vh; EvWait 100]) = [] /\
  consoleErrors (run (mount goodFile selected throws false)
                   [EvWait delay; EvLoadedMetadata d vw vh; EvWait 100]) =
    ["Failed to get canvas context"].
Proof.
  intros Hd.
  assert (E1 : (10000 <=? delay)%N = false) by (apply N.leb_gt; lia).
  assert (E2 : (delay + 100 <? 10000)%N = true) by (apply N.ltb_lt; lia).
  assert (E3 : (delay + 100 <=? delay + 100)%N = true) by (apply N.leb_refl).
  assert (E4 : (10000 <=? delay + 100)%N = false) by (apply N.leb_gt; lia).
  match goal with
  | |- context [run ?w0 ?evs] => remember (run w0 evs) as w eqn:E
  end.
  unfold run in E. cbn [fold_left] in E.
  eval_inner_step_in E. rewrite !N.add_0_l, E1 in E. cbv beta iota in E.
  eval_inner_step_in E. rewrite E2 in E. cbv beta iota in E.
  eval_inner_step_in E. rewrite E3, E4 in E.
  cbv -[N.add N.ltb N.leb clampQ initialTimeOf] in E.
  subst w. split; [|split]; reflexivity.
Qed.

Lemma load_completes_without_context_witness :
  status (run (mount goodFile None neverThrows false)
              [EvWait 50; EvLoadedMetadata 30 640 480; EvWait 100]) = Ready /\
  calls (run (mount goodFile None neverThrows false)
             [EvWait 50; EvLoadedMetadata 30 640 480; EvWait 100]) = [] /\
  consoleErrors (run (mount goodFile None neverThrows false)
                   [EvWait 50; EvLoadedMetadata 30 640 480; EvWait 100]) =
    ["Failed to get canvas context"].
Proof.
  apply (load_completes_without_context None neverThrows 30 640 480 50).
  vm_compute. reflexivity.
Defined.
